(** * sysReview: the core of the systematic-review tool, embedded and verified

    The program ([sysReview.py]) cleans the text of each uploaded document
    ([clean_text]), asks a summarisation pipeline one question per section
    of a fixed nested schema ([structured_summary], [summarize_text]), and
    merges the reviews of the documents into one ([aggregate_reviews]),
    removing repeated sentences from every merged leaf
    ([remove_repeated_sentences]).

    The embedding is shallow.  Python values are an inductive type, a dict
    is its items in insertion order, and an exception is the [Raise] side of
    a result type.  What the program cannot see into is a parameter: the
    summarisation pipeline, Python's [repr], and the order in which a set
    of strings is iterated.

    Strings are [String.string]: each [ascii] stands for the code point of
    the same number, so the model covers the strings over code points below
    256. *)

From Stdlib Require Import String Ascii List Bool Arith ZArith Lia Permutation DecimalString.
Import ListNotations.
Local Open Scope string_scope.
Local Open Scope list_scope.
#[local] Set Warnings "-register-all".

(** ** Python's string methods *)

Module Str.

(** [sep.join(l)] for a list of strings. *)
Fixpoint join (sep : string) (l : list string) : string :=
  match l with
  | [] => ""
  | x :: rest =>
      match rest with
      | [] => x
      | _ :: _ => x ++ sep ++ join sep rest
      end
  end.

(** Puts a character in front of the piece being read. *)
Definition cons_head (c : ascii) (l : list string) : list string :=
  match l with
  | [] => [String c ""]
  | w :: ws => String c w :: ws
  end.

(** The left-to-right scan of [s.split(sep)]: [skip] counts the characters
    of a separator just matched that are still to be passed over. *)
Fixpoint split_from (sep : string) (skip : nat) (s : string) : list string :=
  match s with
  | "" => [""]
  | String c s' =>
      match skip with
      | S n => split_from sep n s'
      | O =>
          if prefix sep s
          then "" :: split_from sep (String.length sep - 1) s'
          else cons_head c (split_from sep 0 s')
      end
  end.

(** [s.split(sep)] for a non-empty [sep] (Python raises [ValueError] on an
    empty one; the program only passes the literal ['. ']). *)
Definition split (s sep : string) : list string := split_from sep 0 s.

(** [str.isspace] on one character, for code points below 256: tab to
    carriage return, the four separators 28-31, space, NEL and NBSP. *)
Definition isspace (c : ascii) : bool :=
  let n := nat_of_ascii c in
  (((9 <=? n) && (n <=? 13)) || ((28 <=? n) && (n <=? 32))
   || (n =? 133) || (n =? 160))%nat.

(** The scan of [s.split()] with no separator: [cur] is the word being
    read; runs of whitespace separate words and produce no empty word. *)
Fixpoint words_from (cur : string) (s : string) : list string :=
  match s with
  | "" => match cur with "" => [] | _ => [cur] end
  | String c s' =>
      if isspace c
      then match cur with
           | "" => words_from "" s'
           | _ => cur :: words_from "" s'
           end
      else words_from (cur ++ String c "") s'
  end.

(** [s.split()]. *)
Definition words (s : string) : list string := words_from "" s.

End Str.

(** ** Python values, exceptions and results *)

(** The values the program handles: strings, lists, and dicts with string
    keys.  A dict is its items in insertion order; keys are unique in a
    well-formed one. *)
Inductive value : Type :=
| VStr (s : string)
| VList (l : list value)
| VDict (d : list (string * value)).

Definition dict : Type := list (string * value).

(** Exceptions, each with what its handler can read from it.  A
    [RuntimeError] raised inside an [except] block keeps the exception being
    handled as its context. *)
Inductive exn : Type :=
| KeyError (key : string)
| IndexError (msg : string)
| AttributeError (msg : string)
| TypeError (msg : string)
| RuntimeError (msg : string) (context : option exn)
| OtherError (cls msg : string).

Inductive result (A : Type) : Type :=
| Return (a : A)
| Raise (e : exn).

Arguments Return {A} a.
Arguments Raise {A} e.

Definition bind {A B : Type} (c : result A) (k : A -> result B) : result B :=
  match c with
  | Return a => k a
  | Raise e => Raise e
  end.

Notation "x <- c ;; k" := (bind c (fun x => k))
  (at level 61, c at next level, right associativity).

(** The builtin classes that derive from [BaseException] and not from
    [Exception]. *)
Definition outside_exception : list string :=
  ["BaseException"; "BaseExceptionGroup"; "GeneratorExit"; "KeyboardInterrupt"; "SystemExit"].

(** [isinstance(e, Exception)].  [OtherError cls msg] is an exception of the
    class named [cls]. *)
Definition is_exception (e : exn) : bool :=
  match e with
  | OtherError cls _ => negb (existsb (String.eqb cls) outside_exception)
  | _ => true
  end.

(** [try: c  except Exception as e: handler e]: an exception outside
    [Exception] is not handled and goes on to the caller. *)
Definition try_except {A : Type} (c : result A) (handler : exn -> result A) : result A :=
  match c with
  | Return a => Return a
  | Raise e => if is_exception e then handler e else Raise e
  end.

(** [for x in l: s = body s x], stopping at the first exception. *)
Fixpoint for_each {A S : Type} (l : list A) (body : S -> A -> result S) (s : S) : result S :=
  match l with
  | [] => Return s
  | x :: l' => s' <- body s x ;; for_each l' body s'
  end.

Module Py.

Definition type_name (v : value) : string :=
  match v with
  | VStr _ => "str"
  | VList _ => "list"
  | VDict _ => "dict"
  end.

Definition no_attribute (v : value) (attr : string) : exn :=
  AttributeError ("'" ++ type_name v ++ "' object has no attribute '" ++ attr ++ "'").

Definition keys (d : dict) : list string := map fst d.

Fixpoint lookup (d : dict) (k : string) : option value :=
  match d with
  | [] => None
  | (k', v) :: d' => if String.eqb k k' then Some v else lookup d' k
  end.

(** [d[k] = v] on the items: in place when the key is there, at the end when
    it is new. *)
Fixpoint store (d : dict) (k : string) (v : value) : dict :=
  match d with
  | [] => [(k, v)]
  | (k', v') :: d' => if String.eqb k k' then (k', v) :: d' else (k', v') :: store d' k v
  end.

(** [v.get(k, default)]. *)
Definition get (v : value) (k : string) (default : value) : result value :=
  match v with
  | VDict d => Return (match lookup d k with Some x => x | None => default end)
  | _ => Raise (no_attribute v "get")
  end.

(** [v.items()]. *)
Definition items (v : value) : result dict :=
  match v with
  | VDict d => Return d
  | _ => Raise (no_attribute v "items")
  end.

(** [v[k]] for a string [k]. *)
Definition getitem (v : value) (k : string) : result value :=
  match v with
  | VDict d => match lookup d k with Some x => Return x | None => Raise (KeyError k) end
  | VList _ => Raise (TypeError "list indices must be integers or slices, not str")
  | VStr _ => Raise (TypeError "string indices must be integers, not 'str'")
  end.

(** [v[k] = x] for a string [k]. *)
Definition setitem (v : value) (k : string) (x : value) : result value :=
  match v with
  | VDict d => Return (VDict (store d k x))
  | VList _ => Raise (TypeError "list indices must be integers or slices, not str")
  | VStr _ => Raise (TypeError "'str' object does not support item assignment")
  end.

(** [v.append(x)]. *)
Definition append (x : value) (v : value) : result value :=
  match v with
  | VList l => Return (VList (l ++ [x]))
  | _ => Raise (no_attribute v "append")
  end.

(** An update of the object reached from [v] through the keys of [path]:
    [v[k1]...[kn] = f (v[k1]...[kn])], which is also how a method that
    mutates that object in place ([append]) shows in [v]. *)
Fixpoint modify_at (path : list string) (f : value -> result value) (v : value) : result value :=
  match path with
  | [] => f v
  | k :: path' =>
      child <- getitem v k ;;
      child' <- modify_at path' f child ;;
      setitem v k child'
  end.

Definition decimal (n : nat) : string := NilEmpty.string_of_uint (Nat.to_uint n).

(** The items of the list that [sep.join] is given, which must be strings;
    [i] is the index of the first one. *)
Fixpoint str_items (i : nat) (l : list value) : result (list string) :=
  match l with
  | [] => Return []
  | VStr s :: l' => rest <- str_items (S i) l' ;; Return (s :: rest)
  | v :: _ =>
      Raise (TypeError ("sequence item " ++ decimal i ++ ": expected str instance, "
                        ++ type_name v ++ " found"))
  end.

Fixpoint chars (s : string) : list string :=
  match s with
  | "" => []
  | String c s' => String c "" :: chars s'
  end.

(** [sep.join(v)]: [v] is iterated, a string by characters and a dict by
    keys. *)
Definition join (sep : string) (v : value) : result string :=
  match v with
  | VList l => strs <- str_items 0 l ;; Return (Str.join sep strs)
  | VStr s => Return (Str.join sep (chars s))
  | VDict d => Return (Str.join sep (keys d))
  end.

End Py.

Definition newline : string := String "010" "".

(** ** The program *)

Section Program.

(** The summarisation pipeline behind [summarizer(...)], a black box: it is
    given the input text, [max_length], [min_length] and [do_sample], and
    returns a list of dicts or raises. *)
Variable summarizer : string -> Z -> Z -> bool -> result (list dict).

(** Python's [repr]: what an f-string shows of a value that is not a string,
    and what [str] shows of a [KeyError]'s key. *)
Variable repr : value -> string.

(** The order in which [set(l)] is iterated.  Python leaves it unspecified;
    in CPython it follows the hash table's slots, so it depends on the
    process's string hashes and on the order of insertion. *)
Variable set_iter : list string -> list string.

(** [f"{v}"]. *)
Definition format (v : value) : string :=
  match v with
  | VStr s => s
  | _ => repr v
  end.

(** [str(e)]. *)
Definition exn_str (e : exn) : string :=
  match e with
  | KeyError k => repr (VStr k)
  | IndexError m | AttributeError m | TypeError m => m
  | RuntimeError m _ => m
  | OtherError _ m => m
  end.

(** [l[0]]. *)
Definition first_item {A : Type} (l : list A) : result A :=
  match l with
  | x :: _ => Return x
  | [] => Raise (IndexError "list index out of range")
  end.

Definition clean_text (text : string) : string :=
  Str.join " " (Str.words text).

Definition summarize_text (text : string) (prompt : value) (max_length min_length : Z)
  : result value :=
  try_except
    (out <- summarizer (format prompt ++ newline ++ text) max_length min_length false ;;
     best <- first_item out ;;
     Py.getitem (VDict best) "summary_text")
    (fun e => Raise (RuntimeError ("Summarization failed: " ++ exn_str e) (Some e))).

Definition remove_repeated_sentences (summary : string) : string :=
  let sentences := set_iter (Str.split summary ". ") in
  Str.join ". " sentences.

Definition criteria_key : string := "3. Inclusion and Exclusion Criteria".

(** The section schema, the local [sections] of [structured_summary]. *)
Definition sections : dict :=
  [ ("A: Abstract",
      VStr "Provide a concise and clear summary of the document's key focus and purpose.");
    ("B: Methods", VDict
      [ ("1. Research Question",
          VStr "What is the primary research question explicitly stated in the document?");
        ("2. Search Strategy",
          VStr "Summarize the methods used to identify and select studies, such as databases searched and keywords.");
        ("3. Inclusion and Exclusion Criteria", VDict
          [ ("Inclusion",
              VStr "List the specific criteria used to include studies in this review.");
            ("Exclusion",
              VStr "List the specific criteria used to exclude studies from this review.") ]);
        ("5. Data Extraction",
          VStr "Describe the process and tools used for extracting data in this research.");
        ("6. Data Synthesis",
          VStr "Explain the approach and methods used to synthesize the data extracted.") ]);
    ("D: Results",
      VStr "Summarize the primary findings and results of this review.") ].

(** The three nested loops of [structured_summary], over any [sections]:
    a value of the first or second level is walked when it is a dict; a
    value of the third level is handed to [summarize_text] whatever it is. *)
Definition structured_summary_over (sections : dict) (text : string) : result value :=
  review <- for_each sections (fun (review : dict) '(section, prompt) =>
    match prompt with
    | VDict prompt_items =>
        sub_sections <- for_each prompt_items (fun (sub_sections : dict) '(sub_section, sub_prompt) =>
          match sub_prompt with
          | VDict sub_prompt_items =>
              nested_sections <- for_each sub_prompt_items
                (fun (nested_sections : dict) '(nested_section, nested_prompt) =>
                   result <- summarize_text text nested_prompt 150 30 ;;
                   Return (Py.store nested_sections nested_section result)) [] ;;
              Return (Py.store sub_sections sub_section (VDict nested_sections))
          | _ =>
              result <- summarize_text text sub_prompt 150 30 ;;
              Return (Py.store sub_sections sub_section result)
          end) [] ;;
        Return (Py.store review section (VDict sub_sections))
    | _ =>
        result <- summarize_text text prompt 150 30 ;;
        Return (Py.store review section result)
    end) [] ;;
  Return (VDict review).

Definition structured_summary (text : string) : result value :=
  structured_summary_over sections text.

(** The dict of empty lists that [aggregate_reviews] starts from. *)
Definition aggregated_init : value :=
  VDict
    [ ("A: Abstract", VList []);
      ("B: Methods", VDict
        [ ("1. Research Question", VList []);
          ("2. Search Strategy", VList []);
          ("3. Inclusion and Exclusion Criteria", VDict
            [ ("Inclusion", VList []);
              ("Exclusion", VList []) ]);
          ("5. Data Extraction", VList []);
          ("6. Data Synthesis", VList []) ]);
      ("D: Results", VList []) ].

(** The body of the loop over the entries of a review's ['B: Methods']. *)
Definition collect_entry (aggregated : value) (entry : string * value) : result value :=
  let '(key, sub_section) := entry in
  if String.eqb key criteria_key then
    inclusion <- Py.get sub_section "Inclusion" (VStr "") ;;
    aggregated <- Py.modify_at ["B: Methods"; criteria_key; "Inclusion"]
                    (Py.append inclusion) aggregated ;;
    exclusion <- Py.get sub_section "Exclusion" (VStr "") ;;
    Py.modify_at ["B: Methods"; criteria_key; "Exclusion"]
      (Py.append exclusion) aggregated
  else
    Py.modify_at ["B: Methods"; key] (Py.append sub_section) aggregated.

(** The body of the first loop of [aggregate_reviews]: what one review adds
    to the lists of [aggregated]. *)
Definition collect (aggregated : value) (review : value) : result value :=
  abstract <- Py.get review "A: Abstract" (VStr "") ;;
  aggregated <- Py.modify_at ["A: Abstract"] (Py.append abstract) aggregated ;;
  methods <- Py.get review "B: Methods" (VDict []) ;;
  entries <- Py.items methods ;;
  aggregated <- for_each entries collect_entry aggregated ;;
  results <- Py.get review "D: Results" (VStr "") ;;
  Py.modify_at ["D: Results"] (Py.append results) aggregated.

(** [remove_repeated_sentences(" ".join(v))]. *)
Definition join_dedupe (v : value) : result value :=
  joined <- Py.join " " v ;;
  Return (VStr (remove_repeated_sentences joined)).

(** The body of the loop over the entries of [aggregated['B: Methods']].
    The loop variable [sub_section] is the object stored under [key] in
    [aggregated], so reading it is reading [aggregated] as it is then. *)
Definition finish_entry (aggregated : value) (key : string) : result value :=
  if String.eqb key criteria_key then
    aggregated <- Py.modify_at ["B: Methods"; criteria_key; "Inclusion"]
                    join_dedupe aggregated ;;
    Py.modify_at ["B: Methods"; criteria_key; "Exclusion"] join_dedupe aggregated
  else
    Py.modify_at ["B: Methods"; key] join_dedupe aggregated.

(** The second part of [aggregate_reviews]: every list becomes one string. *)
Definition finish (aggregated : value) : result value :=
  aggregated <- Py.modify_at ["A: Abstract"] join_dedupe aggregated ;;
  methods <- Py.getitem aggregated "B: Methods" ;;
  entries <- Py.items methods ;;
  aggregated <- for_each (Py.keys entries) finish_entry aggregated ;;
  Py.modify_at ["D: Results"] join_dedupe aggregated.

Definition aggregate_reviews (reviews : list value) : result value :=
  aggregated <- for_each reviews collect aggregated_init ;;
  finish aggregated.

End Program.

(** ** The rest of the program: extraction and the batch *)

(** What the script shows and writes, in order.  The calls of [st] and the
    writing of the file are taken not to raise. *)
Inductive event : Type :=
| StTitle (body : string)
| StWrite (body : string)
| StSpinner (body : string)
| StSuccess (body : string)
| StError (body : string)
| StJson (body : value)
| FileWrite (path content : string)
| StDownloadButton (label data file_name mime : string).

Section Batch.

Variable summarizer : string -> Z -> Z -> bool -> result (list dict).
Variable repr : value -> string.
Variable set_iter : list string -> list string.

(** An uploaded file and its [name]. *)
Variable upload : Type.
Variable name : upload -> string.

(** [PdfReader(pdf_path).pages], a black box: the pages of the document, or
    an exception; and [page.extract_text()], the text of a page or an
    exception. *)
Variable page : Type.
Variable PdfReader : upload -> result (list page).
Variable extract_text : page -> result string.

(** [json.dumps(v, indent=4)], which is also what [json.dump] writes, and
    [Path(p).absolute()]. *)
Variable json_dumps : value -> string.
Variable absolute : string -> string.

Definition extract_text_from_pdf (pdf_path : upload) : result string :=
  try_except
    (pages <- PdfReader pdf_path ;;
     for_each pages (fun (text : string) page => t <- extract_text page ;; Return (text ++ t)%string)
       "")
    (fun e => Raise (OtherError "ValueError"
                       ("Error reading " ++ name pdf_path ++ ": " ++ exn_str repr e))).

(** The three calls of the [try] block that can raise. *)
Definition review_file (uploaded_file : upload) : result value :=
  text <- extract_text_from_pdf uploaded_file ;;
  structured_summary summarizer repr (clean_text text).

(** The body of the loop over the uploaded files: [n] is
    [len(uploaded_files)], the state is [results] and what was shown.  The
    handler is [except Exception]: an exception outside [Exception] is
    not handled, and is given with the state it leaves behind. *)
Definition process_file (n : nat) (state : list value * list event)
    (item : nat * upload) : list value * list event * option exn :=
  let '(results, shown) := state in
  let '(i, uploaded_file) := item in
  let shown :=
    shown ++ [StWrite ("Processing (" ++ Py.decimal (i + 1) ++ "/" ++ Py.decimal n ++ "): "
                       ++ name uploaded_file)] in
  match review_file uploaded_file with
  | Return review =>
      (results ++ [review],
       shown ++ [StSuccess ("Review completed for " ++ name uploaded_file)],
       None)
  | Raise e =>
      if is_exception e
      then (results,
            shown ++ [StError ("Failed to process " ++ name uploaded_file ++ ": "
                               ++ exn_str repr e)],
            None)
      else (results, shown, Some e)
  end.

(** [enumerate(l)]. *)
Definition enumerate {A : Type} (l : list A) : list (nat * A) :=
  combine (seq 0 (length l)) l.

(** [for item in items: process_file], up to the first exception that
    leaves the body. *)
Fixpoint process_loop (n : nat) (items : list (nat * upload))
    (state : list value * list event) : list value * list event * option exn :=
  match items with
  | [] => (state, None)
  | item :: items' =>
      match process_file n state item with
      | (state', None) => process_loop n items' state'
      | (state', Some e) => (state', Some e)
      end
  end.

(** The loop under the spinner. *)
Definition process_files (uploaded_files : list upload)
  : list value * list event * option exn :=
  process_loop (length uploaded_files) (enumerate uploaded_files)
               ([], [StSpinner "Processing PDFs..."]).

(** The script: what it shows and writes, and how it ends.  [button] is
    what [st.button] returns.  An exception that leaves the loop, or
    [aggregate_reviews], ends the script. *)
Definition main (uploaded_files : list upload) (button : bool)
  : list event * result unit :=
  let shown :=
    [ StTitle "Systematic Review Tool";
      StWrite "Upload multiple PDFs to generate structured summaries and a systematic review." ] in
  if button then
    match uploaded_files with
    | _ :: _ =>
        let '(results, processing, stopped) := process_files uploaded_files in
        match stopped with
        | Some e => (shown ++ processing, Raise e)
        | None =>
            match aggregate_reviews set_iter results with
            | Return aggregated_review =>
                (shown ++ processing ++
                 [ StWrite "## Aggregated Systematic Review";
                   StJson aggregated_review;
                   FileWrite "systematic_review.json" (json_dumps aggregated_review);
                   StSuccess ("Systematic review saved to "
                              ++ absolute "systematic_review.json");
                   StDownloadButton "Download Systematic Review JSON"
                     (json_dumps aggregated_review) "systematic_review.json"
                     "application/json" ],
                 Return tt)
            | Raise e => (shown ++ processing, Raise e)
            end
        end
    | [] => (shown ++ [StError "No PDFs uploaded!"], Return tt)
    end
  else (shown, Return tt).

End Batch.

(** ** Vocabulary of the specification *)

(** A string with no ['. '] in it is the one piece of its own split. *)
Definition atomic (x : string) : Prop := Str.split x ". " = [x].

(** Words: non-empty and free of whitespace. *)
Fixpoint nospace (s : string) : bool :=
  match s with
  | "" => true
  | String c s' => negb (Str.isspace c) && nospace s'
  end.

Definition is_word (w : string) : Prop := w <> "" /\ nospace w = true.

(** What Python promises of iterating [set(l)]: every element of [l], each
    once, in some order. *)
Definition set_contract (set_iter : list string -> list string) : Prop :=
  forall l, NoDup (set_iter l) /\ forall x, In x (set_iter l) <-> In x l.

(** Two iteration orders that meet the contract: the elements in the order
    of their last occurrence, and that order reversed. *)
Definition last_seen (l : list string) : list string := nodup string_dec l.

Definition last_seen_rev (l : list string) : list string := rev (nodup string_dec l).

(** *** CPython's small set

    How CPython ([set_add_entry] and [set_next] of Objects/setobject.c)
    fills and iterates the table of a new set while it has its first 8
    slots, which is until a fifth element is added.  A string goes to the
    slot numbered by the low three bits of its hash; when that slot holds
    another string, the next slot tried is [(5 * i + 1 + perturb) mod 8],
    where [perturb] is the hash as an unsigned 64-bit number, shifted right
    by 5 bits once more at each try.  Iteration follows the slots.  The
    hash of a string is a parameter: it changes from process to process. *)

Fixpoint put {A : Type} (l : list A) (i : nat) (a : A) : list A :=
  match l, i with
  | [], _ => []
  | _ :: l', O => a :: l'
  | x :: l', S i' => x :: put l' i' a
  end.

Fixpoint probe (fuel : nat) (table : list (option string)) (key : string) (i perturb : Z)
  : list (option string) :=
  match fuel with
  | O => table
  | S fuel' =>
      match nth (Z.to_nat i) table None with
      | None => put table (Z.to_nat i) (Some key)
      | Some k =>
          if String.eqb k key then table
          else
            let perturb' := Z.shiftr perturb 5 in
            probe fuel' table key (Z.land (i * 5 + 1 + perturb') 7) perturb'
      end
  end.

Definition set_add_entry (hash : string -> Z) (table : list (option string)) (key : string)
  : list (option string) :=
  probe 32 table key (Z.land (hash key) 7) (hash key mod 2 ^ 64).

Definition cpython_small_set (hash : string -> Z) (l : list string) : list string :=
  flat_map (fun entry => match entry with Some k => [k] | None => [] end)
           (fold_left (set_add_entry hash) l (repeat None 8)).

(** The hashes of ['a'] and ['f'] in 64-bit CPython 3.11 started with
    PYTHONHASHSEED=0. *)
Definition hash_seed0 (s : string) : Z :=
  if String.eqb s "a" then 4644417185603328019
  else if String.eqb s "f" then 3249101202581076003
  else 0.

(** What the pipeline promises of the list it returns: a first dict that
    holds a string under ['summary_text']. *)
Definition best_summary (out : list dict) : option string :=
  match out with
  | best :: _ =>
      match Py.lookup best "summary_text" with
      | Some (VStr s) => Some s
      | _ => None
      end
  | [] => None
  end.

Definition pipeline_contract (summarizer : string -> Z -> Z -> bool -> result (list dict)) : Prop :=
  forall input max_length min_length do_sample out,
    summarizer input max_length min_length do_sample = Return out ->
    exists s, best_summary out = Some s.

(** A pipeline that answers every input with the same summary. *)
Definition constant_pipeline (s : string) : string -> Z -> Z -> bool -> result (list dict) :=
  fun _ _ _ _ => Return [[("summary_text", VStr s)]].

(** A pipeline that always fails. *)
Definition failing_pipeline (e : exn) : string -> Z -> Z -> bool -> result (list dict) :=
  fun _ _ _ _ => Raise e.

(** A pipeline that answers every input with that input. *)
Definition echo_pipeline : string -> Z -> Z -> bool -> result (list dict) :=
  fun input _ _ _ => Return [[("summary_text", VStr input)]].

(** A stand-in for [repr] where its text does not matter. *)
Definition opaque_repr (v : value) : string := "<" ++ Py.type_name v ++ ">".

(** *** Trees and paths *)

Definition is_str (v : value) : Prop := exists s, v = VStr s.

(** The value reached from [v] through the keys of [path]. *)
Fixpoint lookup_path (v : value) (path : list string) : option value :=
  match path with
  | [] => Some v
  | k :: path' =>
      match v with
      | VDict d =>
          match Py.lookup d k with
          | Some child => lookup_path child path'
          | None => None
          end
      | _ => None
      end
  end.

(** The string at [path], when there is one. *)
Definition leaf (v : value) (path : list string) : option string :=
  match lookup_path v path with
  | Some (VStr s) => Some s
  | _ => None
  end.

(** The paths of all nodes below the root, parents first. *)
Fixpoint paths (v : value) : list (list string) :=
  match v with
  | VDict d =>
      (fix go (d : dict) : list (list string) :=
         match d with
         | [] => []
         | (k, child) :: d' => ([k] :: map (cons k) (paths child)) ++ go d'
         end) d
  | _ => []
  end.

(** The paths of the nodes that are not dicts. *)
Fixpoint leaf_paths (v : value) : list (list string) :=
  match v with
  | VDict d =>
      (fix go (d : dict) : list (list string) :=
         match d with
         | [] => []
         | (k, child) :: d' => map (cons k) (leaf_paths child) ++ go d'
         end) d
  | _ => [[]]
  end.

(** The paths of the dicts below the root. *)
Definition branch_paths (v : value) : list (list string) :=
  filter (fun p => match lookup_path v p with Some (VDict _) => true | _ => false end) (paths v).

(** The prompts of a schema, in order. *)
Fixpoint prompts (v : value) : list string :=
  match v with
  | VStr s => [s]
  | VList _ => []
  | VDict d =>
      (fix go (d : dict) : list string :=
         match d with
         | [] => []
         | (_, child) :: d' => prompts child ++ go d'
         end) d
  end.

(** A schema: dicts with unique keys, prompts at the leaves. *)
Fixpoint is_schema (v : value) : bool :=
  match v with
  | VStr _ => true
  | VList _ => false
  | VDict d =>
      (fix go (d : dict) : bool :=
         match d with
         | [] => true
         | (k, child) :: d' =>
             negb (existsb (String.eqb k) (Py.keys d')) && is_schema child && go d'
         end) d
  end.

(** The number of levels of dicts. *)
Fixpoint height (v : value) : nat :=
  match v with
  | VDict d =>
      S ((fix go (d : dict) : nat :=
            match d with
            | [] => 0
            | (_, child) :: d' => Nat.max (height child) (go d')
            end) d)
  | _ => 0
  end.

(** The tree [v] with every leaf string [s] replaced by [f s]. *)
Fixpoint map_leaves (f : string -> value) (v : value) : value :=
  match v with
  | VStr s => f s
  | VList l => VList l
  | VDict d =>
      VDict ((fix go (d : dict) : dict :=
                match d with
                | [] => []
                | (k, child) :: d' => (k, map_leaves f child) :: go d'
                end) d)
  end.

Fixpoint unique_keys (ks : list string) : bool :=
  match ks with
  | [] => true
  | k :: ks' => negb (existsb (String.eqb k) ks') && unique_keys ks'
  end.

(** [within schema r]: [r] has unique keys, every path of [r] is a path of
    [schema], and [r] holds a string where the schema holds a prompt and a
    dict where it holds a dict. *)
Fixpoint within (schema r : value) {struct schema} : bool :=
  match schema, r with
  | VStr _, VStr _ => true
  | VDict sd, VDict rd =>
      unique_keys (Py.keys rd) &&
      forallb (fun '(k, rv) =>
        (fix find (sd : dict) : bool :=
           match sd with
           | [] => false
           | (k', sv) :: sd' => if String.eqb k k' then within sv rv else find sd'
           end) sd) rd
  | _, _ => false
  end.

(** [covers schema r]: every path of [schema] is a path of [r]. *)
Fixpoint covers (schema r : value) {struct schema} : bool :=
  match schema with
  | VDict sd =>
      match r with
      | VDict rd =>
          (fix all (sd : dict) : bool :=
             match sd with
             | [] => true
             | (k, sv) :: sd' =>
                 match Py.lookup rd k with
                 | Some rv => covers sv rv
                 | None => false
                 end && all sd'
             end) sd
      | _ => false
      end
  | _ => true
  end.

(** A review that lacks nothing and one that may lack branches or leaves. *)
Definition partial_review (r : value) : Prop := within (VDict sections) r = true.

Definition valid_review (r : value) : Prop :=
  within (VDict sections) r = true /\ covers (VDict sections) r = true.

(** *** The eight leaves of the schema *)

Record leaves (A : Type) : Type := Leaves {
  abstract_leaf : A;
  question_leaf : A;
  search_leaf : A;
  inclusion_leaf : A;
  exclusion_leaf : A;
  extraction_leaf : A;
  synthesis_leaf : A;
  results_leaf : A
}.

Arguments Leaves {A}.
Arguments abstract_leaf {A}.
Arguments question_leaf {A}.
Arguments search_leaf {A}.
Arguments inclusion_leaf {A}.
Arguments exclusion_leaf {A}.
Arguments extraction_leaf {A}.
Arguments synthesis_leaf {A}.
Arguments results_leaf {A}.

Inductive slot : Type :=
| Abstract | Question | Search | Inclusion | Exclusion | Extraction | Synthesis | Results.

Definition slots : list slot :=
  [Abstract; Question; Search; Inclusion; Exclusion; Extraction; Synthesis; Results].

Definition slot_path (sl : slot) : list string :=
  match sl with
  | Abstract => ["A: Abstract"]
  | Question => ["B: Methods"; "1. Research Question"]
  | Search => ["B: Methods"; "2. Search Strategy"]
  | Inclusion => ["B: Methods"; "3. Inclusion and Exclusion Criteria"; "Inclusion"]
  | Exclusion => ["B: Methods"; "3. Inclusion and Exclusion Criteria"; "Exclusion"]
  | Extraction => ["B: Methods"; "5. Data Extraction"]
  | Synthesis => ["B: Methods"; "6. Data Synthesis"]
  | Results => ["D: Results"]
  end.

Definition get_slot {A : Type} (sl : slot) (x : leaves A) : A :=
  match sl with
  | Abstract => abstract_leaf x
  | Question => question_leaf x
  | Search => search_leaf x
  | Inclusion => inclusion_leaf x
  | Exclusion => exclusion_leaf x
  | Extraction => extraction_leaf x
  | Synthesis => synthesis_leaf x
  | Results => results_leaf x
  end.

Definition set_slot {A : Type} (sl : slot) (a : A) (x : leaves A) : leaves A :=
  let '(Leaves a1 a2 a3 a4 a5 a6 a7 a8) := x in
  match sl with
  | Abstract => Leaves a a2 a3 a4 a5 a6 a7 a8
  | Question => Leaves a1 a a3 a4 a5 a6 a7 a8
  | Search => Leaves a1 a2 a a4 a5 a6 a7 a8
  | Inclusion => Leaves a1 a2 a3 a a5 a6 a7 a8
  | Exclusion => Leaves a1 a2 a3 a4 a a6 a7 a8
  | Extraction => Leaves a1 a2 a3 a4 a5 a a7 a8
  | Synthesis => Leaves a1 a2 a3 a4 a5 a6 a a8
  | Results => Leaves a1 a2 a3 a4 a5 a6 a7 a
  end.

Definition leaves_pure {A : Type} (a : A) : leaves A := Leaves a a a a a a a a.

Definition leaves_map {A B : Type} (f : A -> B) (x : leaves A) : leaves B :=
  Leaves (f (abstract_leaf x)) (f (question_leaf x)) (f (search_leaf x)) (f (inclusion_leaf x))
         (f (exclusion_leaf x)) (f (extraction_leaf x)) (f (synthesis_leaf x)) (f (results_leaf x)).

Definition leaves_zip {A B C : Type} (f : A -> B -> C) (x : leaves A) (y : leaves B) : leaves C :=
  Leaves (f (abstract_leaf x) (abstract_leaf y)) (f (question_leaf x) (question_leaf y))
         (f (search_leaf x) (search_leaf y)) (f (inclusion_leaf x) (inclusion_leaf y))
         (f (exclusion_leaf x) (exclusion_leaf y)) (f (extraction_leaf x) (extraction_leaf y))
         (f (synthesis_leaf x) (synthesis_leaf y)) (f (results_leaf x) (results_leaf y)).

Definition leaves_all {A : Type} (P : A -> Prop) (x : leaves A) : Prop :=
  forall sl, P (get_slot sl x).

(** The tree of the schema's shape with [x] at the leaves. *)
Definition tree_of (x : leaves value) : value :=
  VDict
    [ ("A: Abstract", abstract_leaf x);
      ("B: Methods", VDict
        [ ("1. Research Question", question_leaf x);
          ("2. Search Strategy", search_leaf x);
          ("3. Inclusion and Exclusion Criteria", VDict
            [ ("Inclusion", inclusion_leaf x);
              ("Exclusion", exclusion_leaf x) ]);
          ("5. Data Extraction", extraction_leaf x);
          ("6. Data Synthesis", synthesis_leaf x) ]);
      ("D: Results", results_leaf x) ].

(** The review with the strings [x] at its leaves. *)
Definition review_of (x : leaves string) : value := tree_of (leaves_map VStr x).

(** *** What the first loop of [aggregate_reviews] collects *)

Definition lists : Type := leaves (list value).

Definition no_lists : lists := leaves_pure [].

Definition add_lists (x y : lists) : lists := leaves_zip (@app value) x y.

(** [d.get(k, "")] on the items of [d]. *)
Definition get_or_empty (d : dict) (k : string) : value :=
  match Py.lookup d k with
  | Some v => v
  | None => VStr ""
  end.

(** What the entry [key: sub_section] of a review's ['B: Methods'] adds. *)
Definition entry_lists (key : string) (sub_section : value) : lists :=
  if String.eqb key criteria_key then
    match sub_section with
    | VDict c =>
        set_slot Inclusion [get_or_empty c "Inclusion"]
          (set_slot Exclusion [get_or_empty c "Exclusion"] no_lists)
    | _ => no_lists
    end
  else if String.eqb key "1. Research Question" then set_slot Question [sub_section] no_lists
  else if String.eqb key "2. Search Strategy" then set_slot Search [sub_section] no_lists
  else if String.eqb key "5. Data Extraction" then set_slot Extraction [sub_section] no_lists
  else if String.eqb key "6. Data Synthesis" then set_slot Synthesis [sub_section] no_lists
  else no_lists.

(** The entries that the first loop takes without raising. *)
Definition entry_ok (entry : string * value) : Prop :=
  (fst entry = criteria_key /\ exists c, snd entry = VDict c) \/
  In (fst entry) ["1. Research Question"; "2. Search Strategy";
                  "5. Data Extraction"; "6. Data Synthesis"].

Definition methods_lists (entries : dict) : lists :=
  fold_right (fun '(key, sub_section) acc => add_lists (entry_lists key sub_section) acc)
             no_lists entries.

(** The entries of a review's ['B: Methods'], none when it is missing. *)
Definition methods_of (top : dict) : dict :=
  match Py.lookup top "B: Methods" with
  | Some (VDict entries) => entries
  | _ => []
  end.

(** The same lists read off the entries by key, for entries with unique
    keys. *)
Definition entry_at (d : dict) (k : string) : list value :=
  match Py.lookup d k with
  | Some v => [v]
  | None => []
  end.

Definition criteria_at (entries : dict) (k : string) : list value :=
  match Py.lookup entries criteria_key with
  | Some (VDict c) => [get_or_empty c k]
  | _ => []
  end.

Definition methods_lookup (entries : dict) : lists :=
  Leaves [] (entry_at entries "1. Research Question") (entry_at entries "2. Search Strategy")
         (criteria_at entries "Inclusion") (criteria_at entries "Exclusion")
         (entry_at entries "5. Data Extraction") (entry_at entries "6. Data Synthesis") [].

(** The entries of [rd] lie within the schema [sd], and those of [sd] are
    all found in [rd]. *)
Definition entries_within (sd rd : dict) : Prop :=
  Forall (fun entry => exists sv,
            Py.lookup sd (fst entry) = Some sv /\ within sv (snd entry) = true) rd.

Definition entries_cover (sd rd : dict) : Prop :=
  Forall (fun entry => exists rv,
            Py.lookup rd (fst entry) = Some rv /\ covers (snd entry) rv = true) sd.

(** The schema of ['B: Methods']. *)
Definition methods_sections : dict := methods_of sections.

Definition review_lists (review : value) : lists :=
  match review with
  | VDict top =>
      set_slot Abstract [get_or_empty top "A: Abstract"]
        (set_slot Results [get_or_empty top "D: Results"] (methods_lists (methods_of top)))
  | _ => no_lists
  end.

Definition review_ok (review : value) : Prop :=
  match review with
  | VDict top =>
      match Py.lookup top "B: Methods" with
      | None => True
      | Some (VDict entries) => Forall entry_ok entries
      | Some _ => False
      end
  | _ => False
  end.

Definition gather (reviews : list value) : lists :=
  fold_right (fun review acc => add_lists (review_lists review) acc) no_lists reviews.

(** The strings among the items of a list. *)
Fixpoint strings (l : list value) : list string :=
  match l with
  | [] => []
  | VStr s :: l' => s :: strings l'
  | _ :: l' => strings l'
  end.

Definition all_strings (x : lists) : Prop := leaves_all (Forall is_str) x.

(** The aggregated review that the second part makes of the lists. *)
Definition merged (set_iter : list string -> list string) (x : lists) : value :=
  tree_of (leaves_map
    (fun l => VStr (remove_repeated_sentences set_iter (Str.join " " (strings l)))) x).

(** *** More vocabulary: clean texts, sentence weights, runs of calls *)

(** A text with no whitespace but single spaces between words. *)
Fixpoint tidy_from (in_word : bool) (s : string) : bool :=
  match s with
  | "" => in_word
  | String c s' =>
      if Ascii.eqb c " " then in_word && tidy_from false s'
      else negb (Str.isspace c) && tidy_from true s'
  end.

Definition tidy (s : string) : bool :=
  match s with
  | "" => true
  | _ => tidy_from false s
  end.

(** A text of whitespace only. *)
Fixpoint blank (s : string) : bool :=
  match s with
  | "" => true
  | String c s' => Str.isspace c && blank s'
  end.

(** The characters of the pieces, with two more for each piece. *)
Definition total_length (l : list string) : nat :=
  fold_right (fun x n => String.length x + 2 + n) 0 l.

(** The first exception among the outcomes of a run of calls. *)
Fixpoint first_failure {A : Type} (l : list (result A)) : option exn :=
  match l with
  | [] => None
  | Raise e :: _ => Some e
  | Return _ :: l' => first_failure l'
  end.

(** What a call returned. *)
Definition value_of (r : result value) : value :=
  match r with
  | Return v => v
  | Raise _ => VStr ""
  end.

(** The key of the entry of ['B: Methods'] that a leaf is read from, for the
    six leaves below ['B: Methods']. *)
Definition entry_key (sl : slot) : option string :=
  match sl with
  | Abstract | Results => None
  | Question => Some "1. Research Question"
  | Search => Some "2. Search Strategy"
  | Inclusion | Exclusion => Some "3. Inclusion and Exclusion Criteria"
  | Extraction => Some "5. Data Extraction"
  | Synthesis => Some "6. Data Synthesis"
  end.

(** Among the outcomes of [f] on the items of a list, the first exception
    that is outside [Exception]. *)
Fixpoint first_fatal {A B : Type} (f : A -> result B) (l : list A) : option exn :=
  match l with
  | [] => None
  | x :: l' =>
      match f x with
      | Return _ => first_fatal f l'
      | Raise e => if is_exception e then first_fatal f l' else Some e
      end
  end.

(** The items before the one that raises it; all of them when there is
    none. *)
Fixpoint before_fatal {A B : Type} (f : A -> result B) (l : list A) : list A :=
  match l with
  | [] => []
  | x :: l' =>
      match f x with
      | Return _ => x :: before_fatal f l'
      | Raise e => if is_exception e then x :: before_fatal f l' else []
      end
  end.

(** The bodies of the error and of the success messages among what was
    shown. *)
Definition errors_shown (shown : list event) : list string :=
  flat_map (fun ev => match ev with StError body => [body] | _ => [] end) shown.

Definition successes_shown (shown : list event) : list string :=
  flat_map (fun ev => match ev with StSuccess body => [body] | _ => [] end) shown.

(** Example uploads: a file is its name, a page is what extracting its text
    gives. *)
Definition demo_reader (file : string) : result (list (result string)) :=
  if String.eqb file "broken.pdf" then
    Raise (OtherError "PdfReadError" "EOF marker not found")
  else if String.eqb file "interrupted.pdf" then
    Raise (OtherError "KeyboardInterrupt" "")
  else if String.eqb file "scan.pdf" then
    Return [Return "Title page. "; Raise (OtherError "NotImplementedError" "unsupported filter")]
  else
    Return [Return "First page. "; Return "Second page."].

Definition demo_name (file : string) : string := file.

Definition demo_extract (p : result string) : result string := p.

Definition demo_absolute (path : string) : string := "/app/" ++ path.

(** A pipeline that fails on the research question and answers the rest. *)
Definition picky_pipeline : string -> Z -> Z -> bool -> result (list dict) :=
  fun input _ _ _ =>
    if prefix "What is the primary research question" input
    then Raise (OtherError "ValueError" "input too long")
    else Return [[("summary_text", VStr "A summary.")]].

(** A pipeline that returns no result. *)
Definition silent_pipeline : string -> Z -> Z -> bool -> result (list dict) :=
  fun _ _ _ _ => Return [].

(** A pipeline that answers with a list where a string is expected. *)
Definition list_pipeline : string -> Z -> Z -> bool -> result (list dict) :=
  fun _ _ _ _ => Return [[("summary_text", VList [])]].

(** The review with [s] at every leaf, its keys in another order. *)
Definition reordered_review (s : string) : value :=
  VDict
    [ ("D: Results", VStr s);
      ("B: Methods", VDict
        [ ("6. Data Synthesis", VStr s);
          ("3. Inclusion and Exclusion Criteria", VDict
            [ ("Exclusion", VStr s);
              ("Inclusion", VStr s) ]);
          ("1. Research Question", VStr s);
          ("5. Data Extraction", VStr s);
          ("2. Search Strategy", VStr s) ]);
      ("A: Abstract", VStr s) ].

(** *** Example data *)



(** A review with [s] at every leaf but no ['1. Research Question']. *)
Definition lacking_question (s : string) : value :=
  VDict
    [ ("A: Abstract", VStr s);
      ("B: Methods", VDict
        [ ("2. Search Strategy", VStr s);
          ("3. Inclusion and Exclusion Criteria", VDict
            [ ("Inclusion", VStr s);
              ("Exclusion", VStr s) ]);
          ("5. Data Extraction", VStr s);
          ("6. Data Synthesis", VStr s) ]);
      ("D: Results", VStr s) ].

(** [review['B: Methods']['1. Research Question'] = q]. *)
Definition with_question (q : string) (review : value) : result value :=
  Py.modify_at ["B: Methods"] (fun methods => Py.setitem methods "1. Research Question" (VStr q))
    review.

(** *** Filling in what [get] defaults *)

(** [d.setdefault(k, v)] on the items of [d]. *)
Definition set_default (d : dict) (k : string) (v : value) : dict :=
  match Py.lookup d k with
  | Some _ => d
  | None => Py.store d k v
  end.

(** The value under [k] replaced by [f] of it. *)
Fixpoint update (d : dict) (k : string) (f : value -> value) : dict :=
  match d with
  | [] => []
  | (k', v) :: d' => (k', if String.eqb k' k then f v else v) :: update d' k f
  end.

Definition fill_criteria (v : value) : value :=
  match v with
  | VDict c => VDict (set_default (set_default c "Inclusion" (VStr "")) "Exclusion" (VStr ""))
  | _ => v
  end.

Definition fill_methods (v : value) : value :=
  match v with
  | VDict entries => VDict (update entries criteria_key fill_criteria)
  | _ => v
  end.

(** The review with an empty string put at the paths it lacks among those
    that [aggregate_reviews] reads with [get(..., "")]: ['A: Abstract'],
    ['D: Results'], and ['Inclusion'] and ['Exclusion'] of a criteria branch
    that is there. *)
Definition fill_defaults (review : value) : value :=
  match review with
  | VDict top =>
      VDict (update
               (set_default (set_default top "A: Abstract" (VStr "")) "D: Results" (VStr ""))
               "B: Methods" fill_methods)
  | _ => review
  end.

(** ** The model on small inputs *)

Example split_sentences : Str.split "One. Two. One" ". " = ["One"; "Two"; "One"].
Proof. reflexivity. Qed.

Example split_keeps_last_stop :
  Str.split "Short abstract. Short abstract." ". " = ["Short abstract"; "Short abstract."].
Proof. reflexivity. Qed.

Example split_without_separator : Str.split "One.Two" ". " = ["One.Two"].
Proof. reflexivity. Qed.

Example split_empty : Str.split "" ". " = [""].
Proof. reflexivity. Qed.

Example split_at_end : Str.split "One. " ". " = ["One"; ""].
Proof. reflexivity. Qed.

Example clean_text_example :
  clean_text ("a " ++ newline ++ newline ++ " b" ++ String "009" "c ") = "a b c".
Proof. reflexivity. Qed.

Example clean_text_empty : clean_text "" = "".
Proof. reflexivity. Qed.

Example remove_repeated_sentences_example :
  remove_repeated_sentences last_seen "One. Two. One" = "Two. One".
Proof. reflexivity. Qed.

Example cpython_small_set_a_f : cpython_small_set hash_seed0 ["a"; "f"] = ["f"; "a"].
Proof. reflexivity. Qed.

Example cpython_small_set_f_a : cpython_small_set hash_seed0 ["f"; "a"] = ["a"; "f"].
Proof. reflexivity. Qed.

Example summarize_text_example :
  summarize_text echo_pipeline opaque_repr "text" (VStr "prompt") 150 30
  = Return (VStr ("prompt" ++ newline ++ "text")).
Proof. reflexivity. Qed.

(** Outside its interface: a pipeline that returns an empty list. *)
Example summarize_text_empty_output :
  summarize_text (fun _ _ _ _ => Return []) opaque_repr "text" (VStr "prompt") 150 30
  = Raise (RuntimeError "Summarization failed: list index out of range"
             (Some (IndexError "list index out of range"))).
Proof. reflexivity. Qed.

Example aggregate_reviews_example :
  aggregate_reviews last_seen
    [review_of (leaves_pure "One. Two"); review_of (leaves_pure "Two. Three")]
  = Return (review_of (leaves_pure "One. Two Two. Three")).
Proof. reflexivity. Qed.

(** One review, aggregated, does not come back as it went in. *)
Example aggregate_reviews_single_example :
  aggregate_reviews last_seen [review_of (leaves_pure "One. Two. One")]
  = Return (review_of (leaves_pure "Two. One")).
Proof. reflexivity. Qed.

(** An entry that the schema does not have, and a leaf that is no string. *)
Example aggregate_reviews_unknown_entry :
  aggregate_reviews last_seen [VDict [("B: Methods", VDict [("4. Quality", VStr "x")])]]
  = Raise (KeyError "4. Quality").
Proof. reflexivity. Qed.

Example aggregate_reviews_dict_leaf :
  aggregate_reviews last_seen [VDict [("A: Abstract", VDict [])]]
  = Raise (TypeError "sequence item 0: expected str instance, dict found").
Proof. reflexivity. Qed.

(** ** Facts about the string methods *)

Module StrFacts.
Import Str.

Lemma prefix_empty (s : string) : prefix "" s = true.
Proof. destruct s; reflexivity. Qed.

Lemma prefix_sep_cons (c : ascii) (r : string) :
  prefix ". " (String c r) = if ascii_dec "." c then prefix " " r else false.
Proof. reflexivity. Qed.

Lemma prefix_space_cons (c : ascii) (r : string) :
  prefix " " (String c r) = if ascii_dec " " c then true else false.
Proof. cbn [prefix]. destruct (ascii_dec " " c); [apply prefix_empty|reflexivity]. Qed.

Lemma prefix_sep_true (c : ascii) (r : string) :
  prefix ". " (String c r) = true -> exists r', c = "."%char /\ r = String " " r'.
Proof.
  rewrite prefix_sep_cons. destruct (ascii_dec "." c) as [<-|]; [|discriminate].
  destruct r as [|a r']; [discriminate|].
  rewrite prefix_space_cons. destruct (ascii_dec " " a) as [<-|]; [|discriminate].
  intros _. now exists r'.
Qed.

Lemma split_nil : split "" ". " = [""].
Proof. reflexivity. Qed.

Lemma split_sep (r : string) :
  split (String "." (String " " r)) ". " = "" :: split r ". ".
Proof.
  unfold split. cbn [split_from]. change (prefix ". " (String "." (String " " r))) with (prefix "" r).
  now rewrite prefix_empty.
Qed.

Lemma split_other (c : ascii) (r : string) :
  prefix ". " (String c r) = false ->
  split (String c r) ". " = cons_head c (split r ". ").
Proof. unfold split. cbn [split_from]. now intros ->. Qed.

(** Induction along the scan of [split] on ['. ']. *)
Lemma split_ind (P : string -> Prop) :
  P "" ->
  (forall r, P r -> P (String "." (String " " r))) ->
  (forall c r, prefix ". " (String c r) = false -> P r -> P (String c r)) ->
  forall s, P s.
Proof.
  intros Hnil Hsep Hother s.
  enough (H : P s /\ forall c, P (String c s)) by apply H.
  induction s as [|a s [IH1 IH2]].
  - split; [assumption|]. intros c. apply Hother; [|assumption].
    rewrite prefix_sep_cons. now destruct (ascii_dec "." c).
  - split; [apply IH2|]. intros c.
    destruct (prefix ". " (String c (String a s))) eqn:E.
    + apply prefix_sep_true in E as (r' & -> & E). injection E as -> <-. now apply Hsep.
    + apply Hother; [assumption|apply IH2].
Qed.

Lemma split_not_nil (s : string) : split s ". " <> [].
Proof.
  induction s using split_ind.
  - discriminate.
  - rewrite split_sep. discriminate.
  - rewrite split_other by assumption.
    destruct (split s ". "); [contradiction|discriminate].
Qed.

Lemma atomic_empty : atomic "".
Proof. reflexivity. Qed.

Lemma atomic_cons_inv (c : ascii) (x : string) :
  atomic (String c x) -> prefix ". " (String c x) = false /\ atomic x.
Proof.
  unfold atomic. intros H.
  destruct (prefix ". " (String c x)) eqn:E.
  - apply prefix_sep_true in E as (r' & -> & ->).
    rewrite split_sep in H. injection H as _ H. now apply split_not_nil in H.
  - split; [reflexivity|]. rewrite split_other in H by assumption.
    destruct (split x ". ") as [|w ws] eqn:Ex; [now apply split_not_nil in Ex|].
    cbn [cons_head] in H. now injection H as -> ->.
Qed.

(** The first piece starts with a space only if the string does. *)
Lemma head_space (r w : string) (ws : list string) :
  split r ". " = w :: ws -> prefix " " w = true -> prefix " " r = true.
Proof.
  destruct r as [|c r].
  - intros [= <- _]. discriminate.
  - destruct (prefix ". " (String c r)) eqn:E.
    + apply prefix_sep_true in E as (r' & -> & ->).
      rewrite split_sep. intros [= <- _]. discriminate.
    + rewrite split_other by assumption.
      destruct (split r ". "); cbn [cons_head]; intros [= <- _];
        now rewrite !prefix_space_cons.
Qed.

Lemma atomic_cons (c : ascii) (r w : string) (ws : list string) :
  prefix ". " (String c r) = false -> split r ". " = w :: ws -> atomic w ->
  atomic (String c w).
Proof.
  intros E Hr Hw. unfold atomic.
  rewrite split_other.
  - now rewrite Hw.
  - rewrite prefix_sep_cons in *. destruct (ascii_dec "." c); [|reflexivity].
    destruct (prefix " " w) eqn:Ew; [|reflexivity].
    now rewrite (head_space _ _ _ Hr Ew) in E.
Qed.

(** Every piece of a split is free of the separator. *)
Lemma split_atomic (s : string) : Forall atomic (split s ". ").
Proof.
  induction s using split_ind.
  - repeat constructor.
  - rewrite split_sep. constructor; [apply atomic_empty|assumption].
  - rewrite split_other by assumption.
    destruct (split s ". ") as [|w ws] eqn:E; [now apply split_not_nil in E|].
    inversion IHs; subst. constructor; [|assumption].
    now apply (atomic_cons c s w ws).
Qed.

Lemma split_app_sep (x rest : string) :
  atomic x -> split (x ++ ". " ++ rest) ". " = x :: split rest ". ".
Proof.
  induction x as [|c x IH]; intros Hx.
  - apply split_sep.
  - apply atomic_cons_inv in Hx as [E Hx].
    change ((String c x ++ ". " ++ rest)%string) with (String c (x ++ ". " ++ rest)).
    rewrite split_other.
    + now rewrite IH.
    + rewrite prefix_sep_cons in *. destruct (ascii_dec "." c); [|reflexivity].
      destruct x as [|a x]; [reflexivity|].
      change ((String a x ++ ". " ++ rest)%string) with (String a (x ++ ". " ++ rest)).
      now rewrite prefix_space_cons in *.
Qed.

(** Splitting undoes joining, for pieces free of the separator. *)
Lemma split_join (l : list string) :
  l <> [] -> Forall atomic l -> split (join ". " l) ". " = l.
Proof.
  induction l as [|x l IH]; [contradiction|]. intros _ H.
  inversion H as [|? ? Hx Hl]; subst.
  destruct l as [|y l].
  - exact Hx.
  - change (join ". " (x :: y :: l)) with (x ++ ". " ++ join ". " (y :: l))%string.
    rewrite split_app_sep by assumption. f_equal. now apply IH.
Qed.

Lemma append_nil_r (s : string) : (s ++ "")%string = s.
Proof. induction s; cbn; congruence. Qed.

Lemma append_assoc (s t u : string) : ((s ++ t) ++ u)%string = (s ++ (t ++ u))%string.
Proof. induction s; cbn; congruence. Qed.

Lemma nospace_app (s t : string) : nospace (s ++ t) = nospace s && nospace t.
Proof. induction s; cbn; [reflexivity|]. now rewrite IHs, andb_assoc. Qed.

(** Reading a run of non-whitespace characters extends the current word. *)
Lemma words_from_app (w s cur : string) :
  nospace w = true -> words_from cur (w ++ s) = words_from (cur ++ w) s.
Proof.
  revert cur. induction w as [|c w IH]; intros cur H.
  - now rewrite append_nil_r.
  - cbn in H. apply andb_prop in H as [Hc Hw]. apply negb_true_iff in Hc.
    cbn [append words_from]. rewrite Hc, IH by assumption.
    now rewrite append_assoc.
Qed.

Lemma words_from_space (cur s : string) :
  cur <> "" -> words_from cur (String " " s) = cur :: words_from "" s.
Proof. destruct cur; [contradiction|reflexivity]. Qed.

Lemma words_from_words (s cur : string) :
  nospace cur = true -> Forall is_word (words_from cur s).
Proof.
  revert cur. induction s as [|c s IH]; intros cur H; cbn [words_from].
  - destruct cur; repeat constructor; [discriminate|assumption].
  - destruct (isspace c) eqn:Ec.
    + destruct cur; [now apply IH|].
      constructor; [split; [discriminate|assumption]|now apply IH].
    + apply IH. rewrite nospace_app, H. cbn. now rewrite Ec.
Qed.

(** Splitting on whitespace undoes joining words with single spaces. *)
Lemma words_join (ws : list string) :
  Forall is_word ws -> words (join " " ws) = ws.
Proof.
  unfold words. induction ws as [|w ws IH]; [reflexivity|].
  intros H. inversion H as [|? ? [Hne Hw] Hws]; subst.
  destruct ws as [|y ws].
  - cbn [join]. rewrite <- (append_nil_r w) at 1.
    rewrite words_from_app by assumption. now destruct w.
  - change (join " " (w :: y :: ws)) with (w ++ String " " (join " " (y :: ws)))%string.
    rewrite words_from_app, words_from_space by assumption.
    f_equal. now apply IH.
Qed.

End StrFacts.

(** ** Facts about dicts *)

Module DictFacts.
Import Py.

Lemma lookup_In (d : dict) (k : string) (v : value) :
  lookup d k = Some v -> In (k, v) d.
Proof.
  induction d as [|[k' v'] d IH]; cbn; [discriminate|].
  destruct (String.eqb_spec k k') as [->|_].
  - intros [= ->]. now left.
  - intros H. right. now apply IH.
Qed.

Lemma lookup_not_key (d : dict) (k : string) :
  existsb (String.eqb k) (keys d) = false -> lookup d k = None.
Proof.
  induction d as [|[k' v'] d IH]; cbn; [reflexivity|].
  intros H. apply orb_false_elim in H as [-> H]. now apply IH.
Qed.

Lemma lookup_store (d : dict) (k k' : string) (v : value) :
  lookup (store d k v) k' = if String.eqb k' k then Some v else lookup d k'.
Proof.
  induction d as [|[k0 v0] d IH]; cbn.
  - reflexivity.
  - destruct (String.eqb_spec k k0) as [->|Hk]; cbn.
    + now destruct (String.eqb k' k0).
    + rewrite IH. destruct (String.eqb_spec k' k0) as [->|_]; [|reflexivity].
      now destruct (String.eqb_spec k0 k) as [->|_].
Qed.

Lemma lookup_set_default (d : dict) (k k' : string) (v : value) :
  lookup (set_default d k v) k'
  = if String.eqb k' k then Some (match lookup d k with Some x => x | None => v end)
    else lookup d k'.
Proof.
  unfold set_default. destruct (lookup d k) eqn:E.
  - destruct (String.eqb_spec k' k) as [->|_]; [assumption|reflexivity].
  - now rewrite lookup_store.
Qed.

Lemma lookup_update (d : dict) (k k' : string) (f : value -> value) :
  lookup (update d k f) k'
  = if String.eqb k' k then option_map f (lookup d k') else lookup d k'.
Proof.
  induction d as [|[k0 v0] d IH]; cbn.
  - now destruct (String.eqb k' k).
  - rewrite IH. destruct (String.eqb k' k0) eqn:E0; [|reflexivity].
    apply String.eqb_eq in E0 as ->. now destruct (String.eqb k0 k).
Qed.

(** Storing under a new key appends the entry. *)
Lemma store_new (d : dict) (k : string) (v : value) :
  existsb (String.eqb k) (keys d) = false -> store d k v = d ++ [(k, v)].
Proof.
  induction d as [|[k' v'] d IH]; cbn; [reflexivity|].
  intros H. apply orb_false_elim in H as [-> H]. now rewrite IH.
Qed.

End DictFacts.

(** ** Facts about set iteration *)

Section SetFacts.

Variable set_iter : list string -> list string.
Hypothesis set_iter_ok : set_contract set_iter.

Lemma set_iter_nodup (l : list string) : NoDup (set_iter l).
Proof. apply set_iter_ok. Qed.

Lemma set_iter_in (l : list string) (x : string) : In x (set_iter l) <-> In x l.
Proof. apply set_iter_ok. Qed.

Lemma set_iter_not_nil (l : list string) : l <> [] -> set_iter l <> [].
Proof.
  destruct l as [|x l]; [contradiction|]. intros _ E.
  assert (H : In x (set_iter (x :: l))) by (apply set_iter_in; now left).
  now rewrite E in H.
Qed.

Lemma set_iter_Forall (P : string -> Prop) (l : list string) :
  Forall P l -> Forall P (set_iter l).
Proof.
  rewrite !Forall_forall. intros H x Hx. apply H. now apply set_iter_in.
Qed.

(** Iterating the set of a duplicate-free list only reorders it. *)
Lemma set_iter_permutation (l : list string) : NoDup l -> Permutation (set_iter l) l.
Proof.
  intros H. apply NoDup_Permutation; [apply set_iter_nodup|assumption|apply set_iter_in].
Qed.

Lemma set_iter_singleton (x : string) : set_iter [x] = [x].
Proof.
  apply Permutation_length_1_inv, Permutation_sym, set_iter_permutation.
  repeat constructor. intros [].
Qed.

(** The sentences of a deduplicated text are the set of the sentences of
    the text, in the order of iteration. *)
Lemma split_remove_repeated (s : string) :
  Str.split (remove_repeated_sentences set_iter s) ". " = set_iter (Str.split s ". ").
Proof.
  unfold remove_repeated_sentences. apply StrFacts.split_join.
  - apply set_iter_not_nil, StrFacts.split_not_nil.
  - apply set_iter_Forall, StrFacts.split_atomic.
Qed.

Lemma remove_repeated_atomic (s : string) :
  atomic s -> remove_repeated_sentences set_iter s = s.
Proof.
  unfold remove_repeated_sentences, atomic. intros ->. now rewrite set_iter_singleton.
Qed.

End SetFacts.

Lemma last_seen_ok : set_contract last_seen.
Proof.
  intros l. split; [apply NoDup_nodup|]. intros x. apply nodup_In.
Qed.

Lemma last_seen_rev_ok : set_contract last_seen_rev.
Proof.
  intros l. split; [apply NoDup_rev, NoDup_nodup|].
  intros x. unfold last_seen_rev. rewrite <- in_rev. apply nodup_In.
Qed.

(** ** Facts about the aggregator *)

(** Unfolds the operations on [leaves] down to the fields. *)
Ltac leaves_simpl :=
  cbv [add_lists leaves_zip leaves_map leaves_pure no_lists tree_of review_of set_slot get_slot
       get_or_empty abstract_leaf question_leaf search_leaf inclusion_leaf exclusion_leaf
       extraction_leaf synthesis_leaf results_leaf].

Section AggregateFacts.

Variable set_iter : list string -> list string.

(** The dict [aggregated] while it holds the lists [x]. *)
Local Abbreviation aggregated_of x := (tree_of (leaves_map VList x)).

(** Updating the object at a leaf's path updates that leaf. *)
Lemma modify_slot (sl : slot) (f : value -> result value) (x : leaves value) :
  Py.modify_at (slot_path sl) f (tree_of x)
  = v <- f (get_slot sl x) ;; Return (tree_of (set_slot sl v x)).
Proof.
  destruct x, sl; cbn; match goal with |- context [f ?a] => destruct (f a) end; reflexivity.
Qed.

Lemma add_lists_nil_r (x : lists) : add_lists x no_lists = x.
Proof. destruct x; cbv [add_lists leaves_zip no_lists leaves_pure]; cbn. now rewrite !app_nil_r. Qed.

Lemma add_lists_assoc (x y z : lists) :
  add_lists (add_lists x y) z = add_lists x (add_lists y z).
Proof. destruct x, y, z; cbv [add_lists leaves_zip]; cbn. now rewrite <- !app_assoc. Qed.

(** One entry of a review's ['B: Methods'] extends the lists by
    [entry_lists]. *)
Lemma collect_entry_ok (x : lists) (entry : string * value) :
  entry_ok entry ->
  collect_entry (aggregated_of x) entry
  = Return (aggregated_of (add_lists x (entry_lists (fst entry) (snd entry)))).
Proof.
  destruct entry as [k v], x. unfold entry_ok. cbn [fst snd].
  intros [[-> [c ->]]|H].
  - cbn. leaves_simpl. now rewrite !app_nil_r.
  - cbn [In] in H. decompose [or] H; try contradiction; subst k; cbn; leaves_simpl;
      now rewrite !app_nil_r.
Qed.

Lemma collect_entries_ok (entries : dict) (x : lists) :
  Forall entry_ok entries ->
  for_each entries collect_entry (aggregated_of x)
  = Return (aggregated_of (add_lists x (methods_lists entries))).
Proof.
  revert x. induction entries as [|[k v] entries IH]; intros x H.
  - cbn. now rewrite add_lists_nil_r.
  - inversion H as [|? ? Hkv Hrest]; subst.
    cbn [for_each]. rewrite collect_entry_ok by assumption. cbn [bind fst snd].
    rewrite IH by assumption. cbn [methods_lists fold_right].
    now rewrite add_lists_assoc.
Qed.

(** The entries of ['B: Methods'] add nothing to the two top-level lists. *)
Lemma methods_lists_top (entries : dict) :
  abstract_leaf (methods_lists entries) = [] /\ results_leaf (methods_lists entries) = [].
Proof.
  induction entries as [|[k v] entries [IHa IHr]]; [now split|].
  cbn [methods_lists fold_right]. fold (methods_lists entries).
  destruct (methods_lists entries). cbn in IHa, IHr. subst.
  unfold entry_lists.
  repeat match goal with
         | |- context [if ?b then _ else _] => destruct b
         | |- context [match ?v with VStr _ => _ | _ => _ end] => destruct v
         end; now split.
Qed.

(** One review extends the lists by [review_lists]. *)
Lemma collect_ok (x : lists) (review : value) :
  review_ok review ->
  collect (aggregated_of x) review
  = Return (aggregated_of (add_lists x (review_lists review))).
Proof.
  destruct review as [| |top]; try contradiction. cbn [review_ok]. intros H.
  unfold collect. cbn [Py.get bind].
  rewrite (modify_slot Abstract). cbn [Py.append get_slot leaves_map abstract_leaf bind].
  assert (E : (entries <- Py.items (match Py.lookup top "B: Methods" with
                                     | Some v => v | None => VDict [] end) ;; Return entries)
              = Return (methods_of top) /\ Forall entry_ok (methods_of top)).
  { unfold methods_of. destruct (Py.lookup top "B: Methods") as [[| |entries]|];
      try contradiction; now split. }
  destruct E as [E Hok].
  destruct (Py.items _) as [entries|]; [|discriminate]. injection E as ->. cbn [bind].
  replace (set_slot Abstract _ _) with
    (leaves_map VList (add_lists x (set_slot Abstract [get_or_empty top "A: Abstract"] no_lists)))
    by (destruct x; leaves_simpl; now rewrite !app_nil_r).
  rewrite collect_entries_ok by assumption. cbn [bind].
  rewrite (modify_slot Results). cbn [Py.append get_slot leaves_map results_leaf bind].
  do 2 f_equal. unfold review_lists.
  destruct (methods_lists_top (methods_of top)) as [Ea Er].
  destruct (methods_lists (methods_of top)), x. cbn in Ea, Er. subst.
  leaves_simpl. now rewrite !app_nil_r.
Qed.

(** The first loop extends the lists by [gather]. *)
Lemma gather_ok (reviews : list value) (x : lists) :
  Forall review_ok reviews ->
  for_each reviews collect (aggregated_of x)
  = Return (aggregated_of (add_lists x (gather reviews))).
Proof.
  revert x. induction reviews as [|r reviews IH]; intros x H.
  - cbn. now rewrite add_lists_nil_r.
  - inversion H; subst. cbn [for_each]. rewrite collect_ok by assumption. cbn [bind].
    rewrite IH by assumption. cbn [gather fold_right]. now rewrite add_lists_assoc.
Qed.

Lemma str_items_strings (l : list value) (i : nat) :
  Forall is_str l -> Py.str_items i l = Return (strings l).
Proof.
  revert i. induction l as [|v l IH]; intros i H; [reflexivity|].
  inversion H as [|? ? [s ->] Hl]; subst. cbn. now rewrite IH.
Qed.

Lemma join_dedupe_strings (l : list value) :
  Forall is_str l ->
  join_dedupe set_iter (VList l)
  = Return (VStr (remove_repeated_sentences set_iter (Str.join " " (strings l)))).
Proof. intros H. unfold join_dedupe. cbn [Py.join]. now rewrite str_items_strings. Qed.

(** The second part turns lists of strings into the merged leaves. *)
Lemma finish_ok (x : lists) :
  all_strings x -> finish set_iter (aggregated_of x) = Return (merged set_iter x).
Proof.
  intros H. unfold finish, finish_entry.
  pose proof (H Abstract) as Ha. pose proof (H Question) as Hq.
  pose proof (H Search) as Hs. pose proof (H Inclusion) as Hi.
  pose proof (H Exclusion) as He. pose proof (H Extraction) as Hx.
  pose proof (H Synthesis) as Hy. pose proof (H Results) as Hr.
  destruct x as [la lq ls li le lx ly lr].
  cbn [get_slot abstract_leaf question_leaf search_leaf inclusion_leaf
       exclusion_leaf extraction_leaf synthesis_leaf results_leaf] in *.
  apply join_dedupe_strings in Ha, Hq, Hs, Hi, He, Hx, Hy, Hr.
  cbn -[join_dedupe]. rewrite Ha.
  cbn -[join_dedupe]. rewrite Hq.
  cbn -[join_dedupe]. rewrite Hs.
  cbn -[join_dedupe]. rewrite Hi.
  cbn -[join_dedupe]. rewrite He.
  cbn -[join_dedupe]. rewrite Hx.
  cbn -[join_dedupe]. rewrite Hy.
  cbn -[join_dedupe]. rewrite Hr.
  reflexivity.
Qed.

(** What [aggregate_reviews] returns, for reviews that the first loop takes
    and that give it strings. *)
Lemma aggregate_reviews_merged (reviews : list value) :
  Forall review_ok reviews -> all_strings (gather reviews) ->
  aggregate_reviews set_iter reviews = Return (merged set_iter (gather reviews)).
Proof.
  intros Hok Hstr. unfold aggregate_reviews.
  change aggregated_init with (aggregated_of no_lists).
  rewrite gather_ok by assumption. cbn [bind].
  replace (add_lists no_lists (gather reviews)) with (gather reviews)
    by (now destruct (gather reviews)).
  now apply finish_ok.
Qed.

End AggregateFacts.

(** ** Facts about the shape of reviews *)

(** What [within] and [covers] say of the entries of a dict. *)
Lemma within_find (k : string) (rv : value) (sd : dict) :
  (fix find (sd : dict) : bool :=
     match sd with
     | [] => false
     | (k', sv) :: sd' => if String.eqb k k' then within sv rv else find sd'
     end) sd = true ->
  exists sv, Py.lookup sd k = Some sv /\ within sv rv = true.
Proof.
  induction sd as [|[k' sv] sd IH]; [discriminate|]. cbn [Py.lookup].
  destruct (String.eqb k k'); [|exact IH]. intros H. now exists sv.
Qed.

Lemma within_dict (sd : dict) (r : value) :
  within (VDict sd) r = true ->
  exists rd, r = VDict rd /\ unique_keys (Py.keys rd) = true /\ entries_within sd rd.
Proof.
  destruct r as [| |rd]; cbn [within]; try discriminate.
  intros H. apply andb_prop in H as [Hu Hf]. exists rd. repeat split; [assumption|].
  rewrite forallb_forall in Hf. apply Forall_forall. intros [k rv] Hin.
  apply within_find. exact (Hf _ Hin).
Qed.

Lemma within_str (p : string) (r : value) : within (VStr p) r = true -> is_str r.
Proof. destruct r; cbn; try discriminate. intros _. now eexists. Qed.

Lemma covers_dict (sd : dict) (r : value) :
  covers (VDict sd) r = true -> exists rd, r = VDict rd /\ entries_cover sd rd.
Proof.
  destruct r as [| |rd]; cbn [covers]; try discriminate.
  intros H. exists rd. split; [reflexivity|].
  induction sd as [|[k sv] sd IH]; [constructor|].
  apply andb_prop in H as [H1 H2]. constructor; [|now apply IH].
  cbn [fst snd]. destruct (Py.lookup rd k) as [rv|]; [|discriminate]. now exists rv.
Qed.

Lemma entries_within_lookup (sd rd : dict) (k : string) (rv : value) :
  entries_within sd rd -> Py.lookup rd k = Some rv ->
  exists sv, Py.lookup sd k = Some sv /\ within sv rv = true.
Proof.
  intros H E. apply DictFacts.lookup_In in E.
  unfold entries_within in H. rewrite Forall_forall in H. exact (H _ E).
Qed.

Lemma is_str_VStr (s : string) : is_str (VStr s).
Proof. now exists s. Qed.

Lemma get_or_empty_str (sd rd : dict) (k : string) :
  entries_within sd rd ->
  (forall sv, Py.lookup sd k = Some sv -> is_str sv) ->
  is_str (get_or_empty rd k).
Proof.
  intros H Hk. unfold get_or_empty. destruct (Py.lookup rd k) as [rv|] eqn:E.
  - destruct (entries_within_lookup _ _ _ _ H E) as (sv & Es & W).
    destruct (Hk _ Es) as [p ->]. now apply within_str in W.
  - apply is_str_VStr.
Qed.

Lemma all_strings_add (x y : lists) :
  all_strings x -> all_strings y -> all_strings (add_lists x y).
Proof.
  intros Hx Hy sl. specialize (Hx sl). specialize (Hy sl).
  destruct x, y, sl; cbn in *; now apply Forall_app.
Qed.

Lemma all_strings_none : all_strings no_lists.
Proof. intros sl. destruct sl; constructor. Qed.

(** An entry of ['B: Methods'] that lies within the schema is taken by the
    first loop and adds strings only. *)
Lemma methods_entry (k : string) (mv : value) :
  (exists sv, Py.lookup methods_sections k = Some sv /\ within sv mv = true) ->
  entry_ok (k, mv) /\ all_strings (entry_lists k mv).
Proof.
  intros (sv & E & W).
  let ms := eval compute in methods_sections in change methods_sections with ms in E.
  cbn [Py.lookup] in E.
  repeat match type of E with
         | (if String.eqb k ?c then _ else _) = _ =>
             destruct (String.eqb_spec k c) as [->|_]
         end; try discriminate; injection E as <-.
  1, 2, 4, 5: apply within_str in W as [s ->];
    (split; [right; cbn; tauto|intros sl; destruct sl; repeat constructor; apply is_str_VStr]).
  apply within_dict in W as (c & -> & _ & Hc).
  split; [left; split; [reflexivity|now exists c]|].
  assert (Hi : is_str (get_or_empty c "Inclusion")).
  { apply (get_or_empty_str _ _ _ Hc). cbn. intros sv [= <-]. apply is_str_VStr. }
  assert (He : is_str (get_or_empty c "Exclusion")).
  { apply (get_or_empty_str _ _ _ Hc). cbn. intros sv [= <-]. apply is_str_VStr. }
  intros sl. destruct sl; repeat constructor; assumption.
Qed.

Lemma methods_entries (entries : dict) :
  entries_within methods_sections entries ->
  Forall entry_ok entries /\ all_strings (methods_lists entries).
Proof.
  induction 1 as [|[k mv] entries H _ [IH1 IH2]].
  - split; [constructor|apply all_strings_none].
  - apply methods_entry in H as [H1 H2]. split; [now constructor|].
    cbn [methods_lists fold_right]. now apply all_strings_add.
Qed.

(** A review within the schema is taken by the first loop and gives it
    strings only. *)
Lemma partial_review_ok (r : value) :
  partial_review r -> review_ok r /\ all_strings (review_lists r).
Proof.
  intros H. apply within_dict in H as (top & -> & _ & Htop).
  assert (Hm : Forall entry_ok (methods_of top) /\ all_strings (methods_lists (methods_of top))
               /\ review_ok (VDict top)).
  { unfold methods_of. cbn [review_ok]. destruct (Py.lookup top "B: Methods") as [v|] eqn:E.
    - destruct (entries_within_lookup _ _ _ _ Htop E) as (sv & Es & W).
      cbn in Es. injection Es as <-.
      apply within_dict in W as (entries & -> & _ & W).
      apply methods_entries in W as [W1 W2]. now repeat split.
    - repeat split; [constructor|apply all_strings_none]. }
  destruct Hm as (_ & Hm & Hok). split; [assumption|].
  assert (Ha : is_str (get_or_empty top "A: Abstract")).
  { apply (get_or_empty_str _ _ _ Htop). cbn. intros sv [= <-]. apply is_str_VStr. }
  assert (Hd : is_str (get_or_empty top "D: Results")).
  { apply (get_or_empty_str _ _ _ Htop). cbn. intros sv [= <-]. apply is_str_VStr. }
  unfold review_lists. intros sl. specialize (Hm sl).
  destruct (methods_lists (methods_of top)), sl; cbn in *; repeat constructor; assumption.
Qed.

Lemma all_strings_gather (reviews : list value) :
  Forall partial_review reviews ->
  Forall review_ok reviews /\ all_strings (gather reviews).
Proof.
  induction 1 as [|r reviews H _ [IH1 IH2]].
  - split; [constructor|apply all_strings_none].
  - apply partial_review_ok in H as [H1 H2]. split; [now constructor|].
    cbn [gather fold_right]. now apply all_strings_add.
Qed.

Lemma entries_cover_lookup (sd rd : dict) (k : string) (sv : value) :
  entries_cover sd rd -> Py.lookup sd k = Some sv ->
  exists rv, Py.lookup rd k = Some rv /\ covers sv rv = true.
Proof.
  intros H E. apply DictFacts.lookup_In in E.
  unfold entries_cover in H. rewrite Forall_forall in H. exact (H _ E).
Qed.

Lemma valid_str_at (sd rd : dict) (k p : string) :
  entries_within sd rd -> entries_cover sd rd -> Py.lookup sd k = Some (VStr p) ->
  exists s, Py.lookup rd k = Some (VStr s).
Proof.
  intros W C E. destruct (entries_cover_lookup _ _ _ _ C E) as (rv & Er & _).
  destruct (entries_within_lookup _ _ _ _ W Er) as (sv & Es & Hw).
  rewrite E in Es. injection Es as <-. apply within_str in Hw as [s ->]. now exists s.
Qed.

Lemma valid_dict_at (sd rd : dict) (k : string) (sd' : dict) :
  entries_within sd rd -> entries_cover sd rd -> Py.lookup sd k = Some (VDict sd') ->
  exists rd', Py.lookup rd k = Some (VDict rd') /\ unique_keys (Py.keys rd') = true /\
              entries_within sd' rd' /\ entries_cover sd' rd'.
Proof.
  intros W C E. destruct (entries_cover_lookup _ _ _ _ C E) as (rv & Er & Hc).
  destruct (entries_within_lookup _ _ _ _ W Er) as (sv & Es & Hw).
  rewrite E in Es. injection Es as <-.
  apply within_dict in Hw as (rd' & -> & Hu & Hw).
  apply covers_dict in Hc as (rd'' & [= <-] & Hc). now exists rd'.
Qed.

(** With unique keys, what the loop collects is what the keys hold. *)
Lemma methods_lists_lookup (entries : dict) :
  unique_keys (Py.keys entries) = true -> Forall entry_ok entries ->
  methods_lists entries = methods_lookup entries.
Proof.
  induction entries as [|[k v] entries IH]; [reflexivity|].
  cbn [Py.keys map fst unique_keys]. intros Hu Hok.
  apply andb_prop in Hu as [Hk Hu]. apply negb_true_iff, DictFacts.lookup_not_key in Hk.
  inversion Hok as [|? ? Hkv Hrest]; subst.
  cbn [methods_lists fold_right]. fold (methods_lists entries). rewrite IH by assumption.
  unfold methods_lookup, entry_at, criteria_at.
  destruct Hkv as [[Ek [c Ev]]|Hin]; cbn [fst snd] in *.
  - subst. cbn. rewrite Hk. reflexivity.
  - cbn [In] in Hin. decompose [or] Hin; try contradiction; subst k; cbn; rewrite Hk;
      reflexivity.
Qed.

(** A valid review holds a string at each of the eight leaves, and these
    are what the first loop collects from it. *)
Lemma valid_review_leaves (r : value) :
  valid_review r ->
  exists x : leaves string,
    (forall sl, leaf r (slot_path sl) = Some (get_slot sl x)) /\
    review_lists r = leaves_map (fun s => [VStr s]) x.
Proof.
  intros [W C]. apply within_dict in W as (top & -> & _ & W).
  apply covers_dict in C as (top' & [= <-] & C).
  destruct (valid_str_at _ _ "A: Abstract" _ W C eq_refl) as [a Ea].
  destruct (valid_str_at _ _ "D: Results" _ W C eq_refl) as [d Ed].
  destruct (valid_dict_at _ _ "B: Methods" _ W C eq_refl) as (ms & Em & Hu & Wm & Cm).
  destruct (valid_str_at _ _ "1. Research Question" _ Wm Cm eq_refl) as [q Eq].
  destruct (valid_str_at _ _ "2. Search Strategy" _ Wm Cm eq_refl) as [s Es].
  destruct (valid_str_at _ _ "5. Data Extraction" _ Wm Cm eq_refl) as [x Ex].
  destruct (valid_str_at _ _ "6. Data Synthesis" _ Wm Cm eq_refl) as [y Ey].
  destruct (valid_dict_at _ _ "3. Inclusion and Exclusion Criteria" _ Wm Cm eq_refl)
    as (c & Ec & _ & Wc & Cc).
  destruct (valid_str_at _ _ "Inclusion" _ Wc Cc eq_refl) as [i Ei].
  destruct (valid_str_at _ _ "Exclusion" _ Wc Cc eq_refl) as [e Ee].
  exists (Leaves a q s i e x y d). split.
  - intros sl. destruct sl; unfold leaf; cbn [slot_path lookup_path get_slot];
      rewrite ?Ea, ?Ed, ?Em, ?Eq, ?Es, ?Ex, ?Ey, ?Ec, ?Ei, ?Ee; reflexivity.
  - unfold review_lists, methods_of. rewrite Em.
    rewrite methods_lists_lookup by (assumption || now apply methods_entries).
    unfold methods_lookup, entry_at, criteria_at, get_or_empty, criteria_key.
    now rewrite Ea, Ed, Eq, Es, Ex, Ey, Ec, Ei, Ee.
Qed.

(** ** Facts about filling in defaults *)

Lemma get_or_empty_set_default (d : dict) (k k' : string) :
  get_or_empty (set_default d k (VStr "")) k' = get_or_empty d k'.
Proof.
  unfold get_or_empty. rewrite DictFacts.lookup_set_default.
  destruct (String.eqb_spec k' k) as [->|_]; reflexivity.
Qed.

Lemma entry_lists_fill (k : string) (v : value) :
  entry_lists k (if String.eqb k criteria_key then fill_criteria v else v) = entry_lists k v.
Proof.
  unfold entry_lists. destruct (String.eqb k criteria_key); [|reflexivity].
  destruct v as [| |c]; try reflexivity. cbn [fill_criteria].
  now rewrite !get_or_empty_set_default.
Qed.

Lemma methods_lists_fill (entries : dict) :
  methods_lists (update entries criteria_key fill_criteria) = methods_lists entries.
Proof.
  induction entries as [|[k v] entries IH]; [reflexivity|].
  cbn [update methods_lists fold_right].
  fold (methods_lists entries). fold (methods_lists (update entries criteria_key fill_criteria)).
  now rewrite IH, entry_lists_fill.
Qed.

Lemma entry_ok_fill (entries : dict) :
  Forall entry_ok entries -> Forall entry_ok (update entries criteria_key fill_criteria).
Proof.
  induction 1 as [|[k v] entries H _ IH]; [constructor|].
  cbn [update]. constructor; [|assumption].
  destruct H as [[Ek [c Ev]]|H]; cbn [fst snd] in *.
  - subst. left. split; [reflexivity|]. cbn. now eexists.
  - now right.
Qed.

Lemma lookup_fill_methods (top : dict) :
  Py.lookup (update (set_default (set_default top "A: Abstract" (VStr "")) "D: Results" (VStr ""))
                    "B: Methods" fill_methods) "B: Methods"
  = option_map fill_methods (Py.lookup top "B: Methods").
Proof. now rewrite DictFacts.lookup_update, !DictFacts.lookup_set_default. Qed.

(** Filling in the defaults changes nothing of what the first loop collects. *)
Lemma review_lists_fill (r : value) : review_lists (fill_defaults r) = review_lists r.
Proof.
  destruct r as [| |top]; try reflexivity.
  cbn [fill_defaults review_lists]. f_equal; [|f_equal].
  - unfold get_or_empty. rewrite DictFacts.lookup_update, !DictFacts.lookup_set_default.
    cbn. now destruct (Py.lookup top "A: Abstract").
  - unfold get_or_empty. rewrite DictFacts.lookup_update, !DictFacts.lookup_set_default.
    cbn. now destruct (Py.lookup top "D: Results").
  - unfold methods_of. rewrite lookup_fill_methods.
    destruct (Py.lookup top "B: Methods") as [[| |entries]|]; try reflexivity.
    apply methods_lists_fill.
Qed.

Lemma review_ok_fill (r : value) : review_ok r -> review_ok (fill_defaults r).
Proof.
  destruct r as [| |top]; try contradiction.
  cbn [fill_defaults review_ok]. rewrite lookup_fill_methods.
  destruct (Py.lookup top "B: Methods") as [[| |entries]|]; try contradiction; cbn.
  - apply entry_ok_fill.
  - trivial.
Qed.

(** ** Facts about the schema walker *)

Section WalkerFacts.

Lemma existsb_eqb_In (k : string) (ks : list string) :
  existsb (String.eqb k) ks = false <-> ~ In k ks.
Proof.
  induction ks as [|k' ks IH]; cbn; [tauto|].
  destruct (String.eqb_spec k k') as [->|Hne]; cbn.
  - split; [discriminate|]. intros H. exfalso. apply H. now left.
  - rewrite IH. split; [intros H [E|E]; [now subst|tauto]|tauto].
Qed.

Lemma unique_keys_NoDup (ks : list string) : unique_keys ks = true <-> NoDup ks.
Proof.
  induction ks as [|k ks IH]; cbn.
  - split; [constructor|reflexivity].
  - rewrite andb_true_iff, negb_true_iff, existsb_eqb_In, IH.
    split; [intros [H1 H2]; now constructor|intros H; inversion H; now split].
Qed.

Lemma is_schema_dict (d : dict) :
  is_schema (VDict d) = true ->
  unique_keys (Py.keys d) = true /\ Forall (fun e => is_schema (snd e) = true) d.
Proof.
  induction d as [|[k v] d IH]; [now split|].
  intros H. cbn [is_schema] in H.
  apply andb_prop in H as [H Hd]. apply andb_prop in H as [Hk Hv].
  destruct (IH Hd) as [IH1 IH2]. split; [|now constructor].
  change (Py.keys ((k, v) :: d)) with (k :: Py.keys d). cbn [unique_keys].
  now rewrite Hk, IH1.
Qed.

Lemma height_dict (d : dict) (n : nat) :
  height (VDict d) <= S n -> Forall (fun e => height (snd e) <= n) d.
Proof.
  cbn [height]. intros H. apply le_S_n in H.
  induction d as [|[k v] d IH]; [constructor|].
  constructor; [cbn; lia|]. apply IH. lia.
Qed.

Lemma height_zero (v : value) : is_schema v = true -> height v <= 0 -> exists p, v = VStr p.
Proof. destruct v; cbn; try discriminate; [now eexists|lia]. Qed.

Lemma prompts_dict (d : dict) (k p : string) (v : value) :
  In (k, v) d -> In p (prompts v) -> In p (prompts (VDict d)).
Proof.
  induction d as [|[k' v'] d IH]; [contradiction|].
  intros [[= -> ->]|H] Hp; cbn; apply in_or_app; [now left|right]. now apply IH.
Qed.

Lemma map_leaves_dict (f : string -> value) (d : dict) :
  map_leaves f (VDict d) = VDict (map (fun e => (fst e, map_leaves f (snd e))) d).
Proof.
  cbn [map_leaves]. f_equal. induction d as [|[k v] d IH]; [reflexivity|].
  cbn [map fst snd]. now rewrite IH.
Qed.

(** A loop that stores one computed value per entry rebuilds the entries
    with those values, keys in the same order. *)
Lemma for_each_store (step : dict -> string * value -> result dict) (g : value -> value)
    (entries acc : dict) :
  NoDup (Py.keys (acc ++ entries)) ->
  (forall acc' k v, In (k, v) entries -> step acc' (k, v) = Return (Py.store acc' k (g v))) ->
  for_each entries step acc = Return (acc ++ map (fun e => (fst e, g (snd e))) entries).
Proof.
  revert acc. induction entries as [|[k v] entries IH]; intros acc Hu Hstep.
  - cbn. now rewrite app_nil_r.
  - cbn [for_each]. rewrite Hstep by now left. cbn [bind].
    unfold Py.keys in Hu. rewrite map_app in Hu. cbn [map fst] in Hu.
    rewrite DictFacts.store_new
      by (apply existsb_eqb_In; apply NoDup_remove_2 in Hu;
          intros Hin; apply Hu, in_or_app; now left).
    rewrite IH.
    + cbn [map fst snd]. now rewrite <- app_assoc.
    + unfold Py.keys. rewrite !map_app. cbn [map fst]. now rewrite <- app_assoc.
    + intros acc' k' v' Hin. apply Hstep. now right.
Qed.

Lemma lookup_map_leaves (f : string -> value) (d : dict) (k : string) :
  Py.lookup (map (fun e => (fst e, map_leaves f (snd e))) d) k
  = option_map (map_leaves f) (Py.lookup d k).
Proof.
  induction d as [|[k' v] d IH]; [reflexivity|]. cbn [map fst snd Py.lookup].
  now destruct (String.eqb k k').
Qed.

(** Where the schema holds a prompt, the mapped tree holds its image. *)
Lemma lookup_path_map_leaves (f : string -> value) (p : list string) :
  forall (v : value) (q : string),
    lookup_path v p = Some (VStr q) -> lookup_path (map_leaves f v) p = Some (f q).
Proof.
  induction p as [|k p IH]; intros v q.
  - cbn. now intros [= ->].
  - destruct v as [| |d]; try discriminate. rewrite map_leaves_dict.
    cbn [lookup_path]. rewrite lookup_map_leaves.
    destruct (Py.lookup d k) as [c|]; [|discriminate]. cbn [option_map]. apply IH.
Qed.




Variable summarizer : string -> Z -> Z -> bool -> result (list dict).
Variable repr : value -> string.
Variable text : string.
Variable summary : string -> string.

Local Abbreviation f := (fun p => VStr (summary p)).
Local Abbreviation summarized p :=
  (summarize_text summarizer repr text (VStr p) 150 30 = Return (VStr (summary p))).

(** The walk of a schema of at most three levels puts its summary in the
    place of every prompt. *)
Lemma structured_summary_over_map (sections : dict) :
  is_schema (VDict sections) = true -> height (VDict sections) <= 3 ->
  (forall p, In p (prompts (VDict sections)) -> summarized p) ->
  structured_summary_over summarizer repr sections text
  = Return (map_leaves f (VDict sections)).
Proof.
  intros Hs Hh Hp. unfold structured_summary_over.
  apply is_schema_dict in Hs as [Hu1 Hs1]. apply height_dict in Hh.
  rewrite Forall_forall in Hs1, Hh.
  rewrite (for_each_store _ (map_leaves f)).
  - cbn [bind app]. now rewrite map_leaves_dict.
  - now apply unique_keys_NoDup.
  - intros review section prompt Hin1.
    specialize (Hs1 _ Hin1). specialize (Hh _ Hin1). cbn [snd] in Hs1, Hh.
    destruct prompt as [p1| |d2]; [|discriminate|].
    { rewrite Hp by (apply (prompts_dict _ section _ _ Hin1); now left). reflexivity. }
    apply is_schema_dict in Hs1 as [Hu2 Hs2]. apply height_dict in Hh.
    rewrite Forall_forall in Hs2, Hh.
    rewrite (for_each_store _ (map_leaves f)).
    + cbn [bind app]. now rewrite map_leaves_dict.
    + now apply unique_keys_NoDup.
    + intros sub_sections sub_section sub_prompt Hin2.
      specialize (Hs2 _ Hin2). specialize (Hh _ Hin2). cbn [snd] in Hs2, Hh.
      assert (Hp2 : forall p, In p (prompts sub_prompt) -> summarized p).
      { intros p Hin. apply Hp. apply (prompts_dict _ section _ _ Hin1).
        now apply (prompts_dict _ sub_section _ _ Hin2). }
      destruct sub_prompt as [p2| |d3]; [|discriminate|].
      { rewrite Hp2 by now left. reflexivity. }
      apply is_schema_dict in Hs2 as [Hu3 Hs3]. apply height_dict in Hh.
      rewrite Forall_forall in Hs3, Hh.
      rewrite (for_each_store _ (map_leaves f)).
      * cbn [bind app]. now rewrite map_leaves_dict.
      * now apply unique_keys_NoDup.
      * intros nested_sections nested_section nested_prompt Hin3.
        specialize (Hs3 _ Hin3). specialize (Hh _ Hin3). cbn [snd] in Hs3, Hh.
        destruct (height_zero _ Hs3 Hh) as [p3 ->].
        rewrite Hp2 by (apply (prompts_dict _ nested_section _ _ Hin3); now left).
        reflexivity.
Qed.

End WalkerFacts.

(** ** Facts about valid reviews *)

Lemma leaf_paths_sections : leaf_paths (VDict sections) = map slot_path slots.
Proof. reflexivity. Qed.

Lemma review_of_valid (x : leaves string) : valid_review (review_of x).
Proof. split; reflexivity. Qed.

Lemma leaf_review_of (x : leaves string) (sl : slot) :
  leaf (review_of x) (slot_path sl) = Some (get_slot sl x).
Proof. destruct sl, x; reflexivity. Qed.

Lemma valid_partial (r : value) : valid_review r -> partial_review r.
Proof. now intros [H _]. Qed.

Lemma gather_single (r : value) : gather [r] = review_lists r.
Proof. cbn [gather fold_right]. apply add_lists_nil_r. Qed.

Lemma gather_pair (r1 r2 : value) :
  gather [r1; r2] = add_lists (review_lists r1) (review_lists r2).
Proof. cbn [gather fold_right]. now rewrite add_lists_nil_r. Qed.

Lemma Forall_leaf_paths (P : list string -> Prop) :
  (forall sl, P (slot_path sl)) -> Forall P (leaf_paths (VDict sections)).
Proof.
  intros H. rewrite leaf_paths_sections. apply Forall_forall.
  intros p Hp. apply in_map_iff in Hp as (sl & <- & _). apply H.
Qed.

(** What two valid reviews aggregate to. *)
Lemma aggregate_reviews_pair (set_iter : list string -> list string) (x y : leaves string) (A B : value) :
  valid_review A -> valid_review B ->
  review_lists A = leaves_map (fun s => [VStr s]) x ->
  review_lists B = leaves_map (fun s => [VStr s]) y ->
  aggregate_reviews set_iter [A; B]
  = Return (review_of (leaves_zip
              (fun a b => remove_repeated_sentences set_iter (a ++ " " ++ b)) x y)).
Proof.
  intros HA HB EA EB.
  destruct (partial_review_ok A (valid_partial A HA)) as [HokA HstrA].
  destruct (partial_review_ok B (valid_partial B HB)) as [HokB HstrB].
  rewrite aggregate_reviews_merged.
  - rewrite gather_pair, EA, EB. now destruct x, y.
  - now repeat constructor.
  - rewrite gather_pair. now apply all_strings_add.
Qed.



(** A text whose deduplication gives it back has no repeated sentence. *)
Lemma remove_repeated_fixed (set_iter : list string -> list string) (s : string) :
  set_contract set_iter ->
  remove_repeated_sentences set_iter s = s -> NoDup (Str.split s ". ").
Proof.
  intros Hset E. rewrite <- E, (split_remove_repeated set_iter Hset). apply Hset.
Qed.

(** ** The claims *)

(** C1, as the code has it.  For two valid reviews A and B, both
    [aggregate_reviews [A; B]] and [aggregate_reviews [B; A]] return, and
    hold at every leaf the deduplication of the two leaves joined with a
    space in the order of the input: of [a ++ " " ++ b] the one, of
    [b ++ " " ++ a] the other.  The two trees are equal when joining
    commutes at every leaf, as it does when A and B hold the same strings. *)
Theorem aggregate_reviews_swap (set_iter : list string -> list string) (A B : value) :
  valid_review A -> valid_review B ->
  exists t u,
    aggregate_reviews set_iter [A; B] = Return t /\
    aggregate_reviews set_iter [B; A] = Return u /\
    Forall (fun p => exists a b,
              leaf A p = Some a /\ leaf B p = Some b /\
              leaf t p = Some (remove_repeated_sentences set_iter (a ++ " " ++ b)) /\
              leaf u p = Some (remove_repeated_sentences set_iter (b ++ " " ++ a)))
           (leaf_paths (VDict sections)) /\
    ((forall p a b, leaf A p = Some a -> leaf B p = Some b ->
                    (a ++ " " ++ b = b ++ " " ++ a)%string) -> t = u).
Proof.
  intros HA HB.
  destruct (valid_review_leaves A HA) as (x & HleafA & EA).
  destruct (valid_review_leaves B HB) as (y & HleafB & EB).
  eexists. eexists.
  split; [now apply (aggregate_reviews_pair set_iter x y)|].
  split; [now apply (aggregate_reviews_pair set_iter y x)|].
  split.
  - apply Forall_leaf_paths. intros sl. exists (get_slot sl x), (get_slot sl y).
    rewrite !leaf_review_of. repeat split; [apply HleafA|apply HleafB|..];
      now destruct sl, x, y.
  - intros Hcomm.
    assert (E : forall sl, (get_slot sl x ++ " " ++ get_slot sl y
                            = get_slot sl y ++ " " ++ get_slot sl x)%string)
      by (intros sl; now apply (Hcomm (slot_path sl))).
    pose proof (E Abstract). pose proof (E Question). pose proof (E Search).
    pose proof (E Inclusion). pose proof (E Exclusion). pose proof (E Extraction).
    pose proof (E Synthesis). pose proof (E Results).
    destruct x as [xa xq xs xi xe xx xy xr], y as [ya yq ys yi ye yx yy yr].
    cbn [get_slot abstract_leaf question_leaf search_leaf inclusion_leaf
         exclusion_leaf extraction_leaf synthesis_leaf results_leaf] in *.
    leaves_simpl. congruence.
Qed.

Lemma aggregate_reviews_swap_witness :
  exists t u,
    aggregate_reviews last_seen [review_of (leaves_pure "Same. Text"); review_of (leaves_pure "Same. Text")] = Return t /\
    aggregate_reviews last_seen [review_of (leaves_pure "Same. Text"); review_of (leaves_pure "Same. Text")] = Return u /\
    Forall (fun p => exists a b,
              leaf (review_of (leaves_pure "Same. Text")) p = Some a /\
              leaf (review_of (leaves_pure "Same. Text")) p = Some b /\
              leaf t p = Some (remove_repeated_sentences last_seen (a ++ " " ++ b)) /\
              leaf u p = Some (remove_repeated_sentences last_seen (b ++ " " ++ a)))
           (leaf_paths (VDict sections)) /\
    ((forall p a b, leaf (review_of (leaves_pure "Same. Text")) p = Some a ->
                    leaf (review_of (leaves_pure "Same. Text")) p = Some b ->
                    (a ++ " " ++ b = b ++ " " ++ a)%string) -> t = u).
Proof.
  exact (aggregate_reviews_swap last_seen _ _
           (review_of_valid (leaves_pure "Same. Text"))
           (review_of_valid (leaves_pure "Same. Text"))).
Defined.

(** C1 as stated fails: with ["a"] at every leaf of one review and ["b"] at
    every leaf of the other, the two orders give ["a b"] and ["b a"].  Each
    joined text is a single sentence, so the order in which a set is
    iterated plays no part. *)
Lemma aggregate_reviews_order_matters :
  valid_review (review_of (leaves_pure "a")) /\
  valid_review (review_of (leaves_pure "b")) /\
  aggregate_reviews last_seen [review_of (leaves_pure "a"); review_of (leaves_pure "b")]
  = Return (review_of (leaves_pure "a b")) /\
  aggregate_reviews last_seen [review_of (leaves_pure "b"); review_of (leaves_pure "a")]
  = Return (review_of (leaves_pure "b a")) /\
  aggregate_reviews last_seen [review_of (leaves_pure "a"); review_of (leaves_pure "b")]
  <> aggregate_reviews last_seen [review_of (leaves_pure "b"); review_of (leaves_pure "a")].
Proof.
  repeat split; try reflexivity. discriminate.
Qed.




(** C3, on the code.  For two valid reviews that both hold
    ["Short abstract."] at ['A: Abstract'], the aggregated leaf is never
    ["Short abstract."]: the joined text splits into ["Short abstract"] and
    ["Short abstract."], two different sentences, and the leaf is
    ["Short abstract. Short abstract."] or
    ["Short abstract.. Short abstract"], as the set is iterated. *)
Theorem aggregate_reviews_short_abstract (set_iter : list string -> list string) (A B : value) :
  set_contract set_iter ->
  valid_review A -> valid_review B ->
  leaf A ["A: Abstract"] = Some "Short abstract." ->
  leaf B ["A: Abstract"] = Some "Short abstract." ->
  exists t, aggregate_reviews set_iter [A; B] = Return t /\
    (leaf t ["A: Abstract"] = Some "Short abstract. Short abstract." \/
     leaf t ["A: Abstract"] = Some "Short abstract.. Short abstract") /\
    leaf t ["A: Abstract"] <> Some "Short abstract.".
Proof.
  intros Hset HA HB LA LB.
  destruct (valid_review_leaves A HA) as (x & HleafA & EA).
  destruct (valid_review_leaves B HB) as (y & HleafB & EB).
  eexists. split; [now apply (aggregate_reviews_pair set_iter x y)|].
  rewrite (leaf_review_of _ Abstract).
  pose proof (HleafA Abstract) as Ea. pose proof (HleafB Abstract) as Eb.
  cbn [slot_path] in Ea, Eb. rewrite LA in Ea. rewrite LB in Eb.
  injection Ea as Ea. injection Eb as Eb.
  destruct x as [xa xq xs xi xe xx xy xr], y as [ya yq ys yi ye yx yy yr].
  cbn [get_slot abstract_leaf leaves_zip] in *. subst xa ya.
  unfold remove_repeated_sentences.
  change (Str.split ("Short abstract." ++ " " ++ "Short abstract.") ". ")
    with ["Short abstract"; "Short abstract."].
  assert (P : Permutation ["Short abstract"; "Short abstract."]
                          (set_iter ["Short abstract"; "Short abstract."])).
  { apply Permutation_sym, set_iter_permutation; [assumption|].
    repeat constructor; cbn; intuition discriminate. }
  apply Permutation_length_2_inv in P as [-> | ->]; cbn; split; auto; discriminate.
Qed.

Lemma aggregate_reviews_short_abstract_witness :
  exists t,
    aggregate_reviews last_seen
      [review_of (leaves_pure "Short abstract."); review_of (leaves_pure "Short abstract.")]
    = Return t /\
    (leaf t ["A: Abstract"] = Some "Short abstract. Short abstract." \/
     leaf t ["A: Abstract"] = Some "Short abstract.. Short abstract") /\
    leaf t ["A: Abstract"] <> Some "Short abstract.".
Proof.
  exact (aggregate_reviews_short_abstract last_seen _ _ last_seen_ok
           (review_of_valid (leaves_pure "Short abstract."))
           (review_of_valid (leaves_pure "Short abstract."))
           eq_refl eq_refl).
Defined.

(** C4.  When every call of the summariser on a prompt of the schema
    returns a string, [structured_summary] returns a tree with the node
    paths of the schema, in the same order, a string at every leaf path and
    a dict at every branch path; it is a valid review. *)
Theorem structured_summary_shape
    (summarizer : string -> Z -> Z -> bool -> result (list dict)) (repr : value -> string)
    (text : string) :
  (forall p, In p (prompts (VDict sections)) ->
     exists s, summarize_text summarizer repr text (VStr p) 150 30 = Return (VStr s)) ->
  exists r,
    structured_summary summarizer repr text = Return r /\
    paths r = paths (VDict sections) /\
    Forall (fun path => exists s, lookup_path r path = Some (VStr s))
           (leaf_paths (VDict sections)) /\
    Forall (fun path => exists d, lookup_path r path = Some (VDict d))
           (branch_paths (VDict sections)) /\
    valid_review r.
Proof.
  intros H.
  set (summary := fun p =>
         match summarize_text summarizer repr text (VStr p) 150 30 with
         | Return (VStr s) => s
         | _ => ""
         end).
  exists (map_leaves (fun p => VStr (summary p)) (VDict sections)).
  split.
  - apply structured_summary_over_map; [reflexivity|apply le_n|].
    intros p Hp. destruct (H p Hp) as [s E]. unfold summary. now rewrite E.
  - split; [reflexivity|]. split; [|split].
    + repeat constructor; eexists; reflexivity.
    + repeat constructor; eexists; reflexivity.
    + split; reflexivity.
Qed.

Lemma structured_summary_shape_witness :
  exists r,
    structured_summary (constant_pipeline "A summary.") opaque_repr "text" = Return r /\
    paths r = paths (VDict sections) /\
    Forall (fun path => exists s, lookup_path r path = Some (VStr s))
           (leaf_paths (VDict sections)) /\
    Forall (fun path => exists d, lookup_path r path = Some (VDict d))
           (branch_paths (VDict sections)) /\
    valid_review r.
Proof.
  exact (structured_summary_shape (constant_pipeline "A summary.") opaque_repr "text"
           (fun p _ => ex_intro _ "A summary." eq_refl)).
Defined.

(** C5.  Aggregating no review returns a tree of the schema's shape with the
    empty string at every leaf. *)
Theorem aggregate_reviews_nil (set_iter : list string -> list string) :
  set_contract set_iter ->
  exists t, aggregate_reviews set_iter [] = Return t /\
    valid_review t /\
    Forall (fun p => leaf t p = Some "") (leaf_paths (VDict sections)).
Proof.
  intros Hset. exists (review_of (leaves_pure "")).
  split; [|split].
  - rewrite aggregate_reviews_merged; [|constructor|apply all_strings_none].
    unfold merged. cbn [gather fold_right]. leaves_simpl. cbn [strings Str.join].
    now rewrite (remove_repeated_atomic set_iter Hset "" StrFacts.atomic_empty).
  - apply review_of_valid.
  - apply Forall_leaf_paths. intros sl. rewrite leaf_review_of. now destruct sl.
Qed.

Lemma aggregate_reviews_nil_witness :
  exists t, aggregate_reviews last_seen [] = Return t /\
    valid_review t /\
    Forall (fun p => leaf t p = Some "") (leaf_paths (VDict sections)).
Proof. exact (aggregate_reviews_nil last_seen last_seen_ok). Defined.

(** C6, as the code has it.  For reviews that may lack branches or leaves
    of the schema, [aggregate_reviews] returns, and it returns the tree it
    returns for the same reviews with an empty string put at the paths they
    lack among ['A: Abstract'], ['D: Results'], and ['Inclusion'] and
    ['Exclusion'] of a criteria branch that is there: these are the paths
    read with [get(..., "")]. *)
Theorem aggregate_reviews_tolerant (set_iter : list string -> list string) (reviews : list value) :
  Forall partial_review reviews ->
  exists t, aggregate_reviews set_iter reviews = Return t /\
            aggregate_reviews set_iter (map fill_defaults reviews) = Return t.
Proof.
  intros H. apply all_strings_gather in H as [Hok Hstr].
  assert (E : gather (map fill_defaults reviews) = gather reviews).
  { clear. induction reviews as [|r reviews IH]; [reflexivity|].
    cbn [map gather fold_right] in *. fold (gather (map fill_defaults reviews)).
    fold (gather reviews). now rewrite IH, review_lists_fill. }
  exists (merged set_iter (gather reviews)). split.
  - now apply aggregate_reviews_merged.
  - rewrite aggregate_reviews_merged.
    + now rewrite E.
    + clear - Hok. induction Hok; constructor; [now apply review_ok_fill|assumption].
    + now rewrite E.
Qed.

Lemma aggregate_reviews_tolerant_witness :
  exists t,
    aggregate_reviews last_seen [review_of (leaves_pure "x"); VDict []] = Return t /\
    aggregate_reviews last_seen (map fill_defaults [review_of (leaves_pure "x"); VDict []])
    = Return t.
Proof.
  apply (aggregate_reviews_tolerant last_seen [review_of (leaves_pure "x"); VDict []]).
  repeat constructor.
Defined.

(** C6 as stated fails for an entry of ['B: Methods'].  A review without
    ['1. Research Question'] adds nothing to that list, where the same
    review with an empty string there adds the empty string: aggregated
    after a review that holds ["x"], the leaf is ["x"] for the first and
    ["x "] for the second. *)
Lemma aggregate_reviews_missing_entry :
  partial_review (lacking_question "x") /\
  lookup_path (lacking_question "x") (slot_path Question) = None /\
  exists filled t u,
    with_question "" (lacking_question "x") = Return filled /\
    aggregate_reviews last_seen [review_of (leaves_pure "x"); lacking_question "x"] = Return t /\
    aggregate_reviews last_seen [review_of (leaves_pure "x"); filled] = Return u /\
    leaf t (slot_path Question) = Some "x" /\
    leaf u (slot_path Question) = Some "x " /\
    t <> u.
Proof.
  split; [reflexivity|]. split; [reflexivity|].
  do 3 eexists. repeat split; try reflexivity. discriminate.
Qed.

(** C7, as the code has it.  Deduplicating twice keeps the sentences of
    deduplicating once: split on ['. '], both results are duplicate-free,
    each is a reordering of the other, and both hold exactly the distinct
    sentences of the text.  The two strings are equal when the set rebuilt
    from the sentences is iterated in the order they are in; which order
    comes out is the set's affair. *)
Theorem remove_repeated_sentences_twice (set_iter : list string -> list string) (s : string) :
  set_contract set_iter ->
  let once := remove_repeated_sentences set_iter s in
  let twice := remove_repeated_sentences set_iter once in
  NoDup (Str.split once ". ") /\
  NoDup (Str.split twice ". ") /\
  Permutation (Str.split twice ". ") (Str.split once ". ") /\
  (forall x, In x (Str.split once ". ") <-> In x (Str.split s ". ")) /\
  (set_iter (Str.split once ". ") = Str.split once ". " -> twice = once).
Proof.
  intros Hset once twice.
  assert (E1 : Str.split once ". " = set_iter (Str.split s ". "))
    by apply (split_remove_repeated set_iter Hset).
  assert (E2 : Str.split twice ". " = set_iter (Str.split once ". "))
    by apply (split_remove_repeated set_iter Hset).
  rewrite E2, E1. repeat split.
  - apply Hset.
  - apply Hset.
  - apply set_iter_permutation; [assumption|apply Hset].
  - apply Hset.
  - apply Hset.
  - intros E. subst twice. unfold remove_repeated_sentences at 1.
    rewrite E1, E. reflexivity.
Qed.

Lemma remove_repeated_sentences_twice_witness :
  Permutation
    (Str.split (remove_repeated_sentences last_seen_rev
                  (remove_repeated_sentences last_seen_rev "a. f. a")) ". ")
    (Str.split (remove_repeated_sentences last_seen_rev "a. f. a") ". ").
Proof.
  exact (proj1 (proj2 (proj2
    (remove_repeated_sentences_twice last_seen_rev "a. f. a" last_seen_rev_ok)))).
Defined.

(** C7 as stated fails.  Under an iteration order that meets the set
    contract, ["a. f"] deduplicates to ["f. a"] and that to ["a. f"] again.
    On the two lists involved the order is the one of CPython's table with
    the hashes of a process started with PYTHONHASHSEED=0: both strings
    belong in slot 3, and the one inserted second goes to a lower slot. *)
Lemma remove_repeated_sentences_not_idempotent :
  set_contract last_seen_rev /\
  last_seen_rev ["a"; "f"] = cpython_small_set hash_seed0 ["a"; "f"] /\
  last_seen_rev ["f"; "a"] = cpython_small_set hash_seed0 ["f"; "a"] /\
  remove_repeated_sentences last_seen_rev "a. f" = "f. a" /\
  remove_repeated_sentences last_seen_rev (remove_repeated_sentences last_seen_rev "a. f")
  = "a. f" /\
  remove_repeated_sentences last_seen_rev (remove_repeated_sentences last_seen_rev "a. f")
  <> remove_repeated_sentences last_seen_rev "a. f".
Proof. split; [apply last_seen_rev_ok|]. repeat split; try reflexivity. discriminate. Qed.

(** C8, as the code has it.  The handler of [summarize_text] is
    [except Exception], around the call of the pipeline and the reading
    of its result.  When the pipeline raises an exception of
    [Exception], [summarize_text] raises a [RuntimeError] whose message
    is ['Summarization failed: '] and the text of the cause and whose
    context is the cause; an exception outside [Exception] leaves
    [summarize_text] as it is.  When the pipeline returns, [summarize_text]
    returns what the first result holds under ['summary_text'], as it is;
    an empty list or a first result without that key gives the
    [RuntimeError] of the [IndexError] or of the [KeyError]. *)
Theorem summarize_text_wraps_exceptions
    (summarizer : string -> Z -> Z -> bool -> result (list dict)) (repr : value -> string)
    (text prompt : string) (max_length min_length : Z) :
  match summarizer (prompt ++ newline ++ text)%string max_length min_length false with
  | Raise e =>
      summarize_text summarizer repr text (VStr prompt) max_length min_length
      = Raise (if is_exception e
               then RuntimeError ("Summarization failed: " ++ exn_str repr e) (Some e)
               else e)
  | Return [] =>
      summarize_text summarizer repr text (VStr prompt) max_length min_length
      = Raise (RuntimeError "Summarization failed: list index out of range"
                 (Some (IndexError "list index out of range")))
  | Return (best :: _) =>
      match Py.lookup best "summary_text" with
      | Some v =>
          summarize_text summarizer repr text (VStr prompt) max_length min_length = Return v
      | None =>
          summarize_text summarizer repr text (VStr prompt) max_length min_length
          = Raise (RuntimeError ("Summarization failed: " ++ repr (VStr "summary_text"))
                     (Some (KeyError "summary_text")))
      end
  end.
Proof.
  unfold summarize_text. cbn [format].
  destruct (summarizer _ max_length min_length false) as [[|best rest]|e] eqn:E.
  - reflexivity.
  - cbn [bind first_item Py.getitem]. now destruct (Py.lookup best "summary_text").
  - cbn [bind try_except]. now destruct (is_exception e).
Qed.

Lemma constant_pipeline_ok (s : string) : pipeline_contract (constant_pipeline s).
Proof. intros ? ? ? ? out [= <-]. now exists s. Qed.

Lemma failing_pipeline_ok (e : exn) : pipeline_contract (failing_pipeline e).
Proof. intros ? ? ? ? out [=]. Qed.

(** C8 as stated fails, both ways.  A pipeline that raises
    [KeyboardInterrupt] makes [summarize_text] raise that exception and no
    [RuntimeError]; a pipeline that returns an empty list raises nothing,
    and [summarize_text] raises. *)
Lemma summarize_text_keyboard_interrupt :
  summarize_text (failing_pipeline (OtherError "KeyboardInterrupt" "")) opaque_repr
    "text" (VStr "prompt") 150 30
  = Raise (OtherError "KeyboardInterrupt" "") /\
  silent_pipeline ("prompt" ++ newline ++ "text")%string 150%Z 30%Z false = Return [] /\
  summarize_text silent_pipeline opaque_repr "text" (VStr "prompt") 150 30
  = Raise (RuntimeError "Summarization failed: list index out of range"
             (Some (IndexError "list index out of range"))).
Proof. repeat split. Qed.

(** C9. The text normaliser is idempotent: cleaning a cleaned text changes
    nothing, for every string. *)
Theorem clean_text_idempotent (s : string) :
  clean_text (clean_text s) = clean_text s.
Proof.
  unfold clean_text. rewrite StrFacts.words_join; [reflexivity|].
  now apply StrFacts.words_from_words.
Qed.

(** C10.  Aggregating a single valid review is not the identity.  It
    returns, at every leaf, [remove_repeated_sentences] of that review's
    leaf.  With a set that keeps each of its elements once, every leaf
    returned has the sentences of the review's leaf and none of them
    twice, so that a review with a repeated sentence in a leaf does not
    come back as it was.  And the order of the sentences may change where
    none is repeated: with the order of CPython's table for the hashes of
    PYTHONHASHSEED=0, ['a. f'] comes back as ['f. a']. *)
Theorem aggregate_reviews_single :
  (forall (set_iter : list string -> list string) (r : value),
     valid_review r ->
     exists t,
       aggregate_reviews set_iter [r] = Return t /\
       Forall (fun p => exists s,
                 leaf r p = Some s /\
                 leaf t p = Some (remove_repeated_sentences set_iter s))
              (leaf_paths (VDict sections)) /\
       (set_contract set_iter ->
        Forall (fun p => exists s u,
                  leaf r p = Some s /\ leaf t p = Some u /\
                  NoDup (Str.split u ". ") /\
                  (forall x, In x (Str.split u ". ") <-> In x (Str.split s ". ")))
               (leaf_paths (VDict sections)) /\
        (Exists (fun p => exists s, leaf r p = Some s /\ ~ NoDup (Str.split s ". "))
                (leaf_paths (VDict sections)) ->
         t <> r))) /\
  (set_contract last_seen_rev /\
   last_seen_rev ["a"; "f"] = cpython_small_set hash_seed0 ["a"; "f"] /\
   valid_review (review_of (leaves_pure "a. f")) /\
   NoDup (Str.split "a. f" ". ") /\
   aggregate_reviews last_seen_rev [review_of (leaves_pure "a. f")]
   = Return (review_of (leaves_pure "f. a"))).
Proof.
  split.
  - intros set_iter r Hr. destruct (valid_review_leaves r Hr) as (x & Hleaf & Hlists).
    destruct (partial_review_ok r (valid_partial r Hr)) as [Hok Hstr].
    assert (Ht : forall sl,
               leaf (review_of (leaves_map (remove_repeated_sentences set_iter) x))
                    (slot_path sl)
               = Some (remove_repeated_sentences set_iter (get_slot sl x)))
      by (intros sl; rewrite leaf_review_of; now destruct sl, x).
    exists (review_of (leaves_map (remove_repeated_sentences set_iter) x)). split.
    { rewrite aggregate_reviews_merged.
      - rewrite gather_single, Hlists. now destruct x.
      - now constructor.
      - now rewrite gather_single. }
    split.
    { apply Forall_leaf_paths. intros sl. exists (get_slot sl x). split; [apply Hleaf|apply Ht]. }
    intros Hset. split.
    + apply Forall_leaf_paths. intros sl.
      exists (get_slot sl x), (remove_repeated_sentences set_iter (get_slot sl x)).
      split; [apply Hleaf|]. split; [apply Ht|].
      rewrite (split_remove_repeated set_iter Hset). split; apply Hset.
    + intros Hdup E. rewrite leaf_paths_sections in Hdup.
      apply Exists_exists in Hdup as (p & Hp & s & Es & Hs).
      apply in_map_iff in Hp as (sl & <- & _).
      rewrite <- E, Ht in Es.
      pose proof (Hleaf sl) as Er. rewrite <- E, Ht in Er.
      injection Er as Er. injection Es as Es. subst s.
      apply Hs. rewrite Er. now apply (remove_repeated_fixed set_iter).
  - split; [apply last_seen_rev_ok|]. repeat split.
    repeat constructor; cbn; intuition discriminate.
Qed.

Lemma aggregate_reviews_single_witness :
  exists t,
    aggregate_reviews last_seen [review_of (leaves_pure "One. Two. One. Three")] = Return t /\
    t <> review_of (leaves_pure "One. Two. One. Three").
Proof.
  destruct (proj1 aggregate_reviews_single last_seen
              (review_of (leaves_pure "One. Two. One. Three"))
              (review_of_valid (leaves_pure "One. Two. One. Three")))
    as (t & E & _ & H).
  exists t. split; [exact E|]. apply (H last_seen_ok). constructor.
  exists "One. Two. One. Three". split; [reflexivity|].
  intros Hn. vm_compute in Hn. inversion Hn as [|? ? Hin _]. apply Hin. cbn. tauto.
Defined.

(** ** The rest of the model on small inputs *)

Example tidy_examples :
  (tidy "a b", tidy " a", tidy "a  b", tidy "a ", tidy "", blank "  ")
  = (true, false, false, false, true, true).
Proof. reflexivity. Qed.

Example extract_text_from_pdf_example :
  extract_text_from_pdf opaque_repr string demo_name (result string) demo_reader demo_extract
    "paper.pdf"
  = Return "First page. Second page.".
Proof. reflexivity. Qed.

Example extract_text_from_pdf_broken :
  extract_text_from_pdf opaque_repr string demo_name (result string) demo_reader demo_extract
    "broken.pdf"
  = Raise (OtherError "ValueError" "Error reading broken.pdf: EOF marker not found").
Proof. reflexivity. Qed.

Example main_example :
  main (constant_pipeline "A summary.") opaque_repr last_seen string demo_name
    (result string) demo_reader demo_extract opaque_repr demo_absolute
    ["paper.pdf"; "broken.pdf"] true
  = ([ StTitle "Systematic Review Tool";
       StWrite "Upload multiple PDFs to generate structured summaries and a systematic review.";
       StSpinner "Processing PDFs...";
       StWrite "Processing (1/2): paper.pdf";
       StSuccess "Review completed for paper.pdf";
       StWrite "Processing (2/2): broken.pdf";
       StError "Failed to process broken.pdf: Error reading broken.pdf: EOF marker not found";
       StWrite "## Aggregated Systematic Review";
       StJson (review_of (leaves_pure "A summary."));
       FileWrite "systematic_review.json" "<dict>";
       StSuccess "Systematic review saved to /app/systematic_review.json";
       StDownloadButton "Download Systematic Review JSON" "<dict>"
         "systematic_review.json" "application/json" ],
     Return tt).
Proof. reflexivity. Qed.

Example main_interrupted :
  main (constant_pipeline "A summary.") opaque_repr last_seen string demo_name
    (result string) demo_reader demo_extract opaque_repr demo_absolute
    ["paper.pdf"; "interrupted.pdf"; "broken.pdf"] true
  = ([ StTitle "Systematic Review Tool";
       StWrite "Upload multiple PDFs to generate structured summaries and a systematic review.";
       StSpinner "Processing PDFs...";
       StWrite "Processing (1/3): paper.pdf";
       StSuccess "Review completed for paper.pdf";
       StWrite "Processing (2/3): interrupted.pdf" ],
     Raise (OtherError "KeyboardInterrupt" "")).
Proof. reflexivity. Qed.

Example process_files_system_exit :
  process_files (failing_pipeline (OtherError "SystemExit" "1")) opaque_repr string demo_name
    (result string) demo_reader demo_extract ["broken.pdf"; "paper.pdf"; "scan.pdf"]
  = ([],
     [ StSpinner "Processing PDFs...";
       StWrite "Processing (1/3): broken.pdf";
       StError "Failed to process broken.pdf: Error reading broken.pdf: EOF marker not found";
       StWrite "Processing (2/3): paper.pdf" ],
     Some (OtherError "SystemExit" "1")).
Proof. reflexivity. Qed.

Example main_no_files :
  main (constant_pipeline "A summary.") opaque_repr last_seen string demo_name
    (result string) demo_reader demo_extract opaque_repr demo_absolute [] true
  = ([ StTitle "Systematic Review Tool";
       StWrite "Upload multiple PDFs to generate structured summaries and a systematic review.";
       StError "No PDFs uploaded!" ],
     Return tt).
Proof. reflexivity. Qed.

(** ** Further facts: the text cleaner *)

Module CleanFacts.
Import Str StrFacts.

Lemma tidy_from_word (w rest : string) (b : bool) :
  is_word w -> tidy_from b (w ++ rest) = tidy_from true rest.
Proof.
  intros [Hne Hw]. revert b. induction w as [|c w IH]; intros b; [contradiction|].
  cbn in Hw. apply andb_prop in Hw as [Hc Hw]. cbn [append tidy_from].
  destruct (Ascii.eqb_spec c " ") as [->|_]; [discriminate|].
  rewrite Hc. cbn [andb]. destruct w as [|c' w]; [reflexivity|].
  apply IH; [discriminate|assumption].
Qed.

Lemma tidy_join (ws : list string) :
  Forall is_word ws -> ws <> [] -> tidy_from false (join " " ws) = true.
Proof.
  induction ws as [|w ws IH]; [contradiction|]. intros H _.
  inversion H as [|? ? Hw Hws]; subst. destruct ws as [|y ws].
  - cbn [join]. rewrite <- (append_nil_r w). now rewrite tidy_from_word.
  - change (join " " (w :: y :: ws)) with (w ++ String " " (join " " (y :: ws)))%string.
    rewrite tidy_from_word by assumption. cbn [tidy_from]. cbn [Ascii.eqb Bool.eqb andb].
    apply IH; [assumption|discriminate].
Qed.

Lemma append_cons_not_empty (cur : string) (c : ascii) : (cur ++ String c "")%string <> "".
Proof. destruct cur; discriminate. Qed.

Lemma tidy_from_words (s cur : string) :
  tidy_from (match cur with "" => false | _ => true end) s = true ->
  join " " (words_from cur s) = (cur ++ s)%string.
Proof.
  revert cur. induction s as [|c s IH]; intros cur H.
  - cbn in *. destruct cur; [discriminate|]. now rewrite append_nil_r.
  - cbn [tidy_from] in H. cbn [words_from].
    destruct (Ascii.eqb_spec c " ") as [->|Hc].
    + apply andb_prop in H as [Hcur Hs]. change (isspace " ") with true. cbn iota.
      destruct cur as [|a cur]; [discriminate|].
      specialize (IH "" Hs). cbn [append] in IH.
      destruct (words_from "" s) as [|w ws] eqn:E.
      * cbn in IH. subst s. discriminate.
      * change (join " " (String a cur :: w :: ws))
          with (String a cur ++ String " " (join " " (w :: ws)))%string.
        now rewrite IH.
    + apply andb_prop in H as [Hsp Hs]. apply negb_true_iff in Hsp. rewrite Hsp.
      rewrite IH.
      * now rewrite append_assoc.
      * destruct (cur ++ String c "")%string eqn:E; [|assumption].
        now apply append_cons_not_empty in E.
Qed.

Lemma words_from_nil (s cur : string) :
  words_from cur s = [] <-> cur = "" /\ blank s = true.
Proof.
  revert cur. induction s as [|c s IH]; intros cur; cbn [words_from blank].
  - destruct cur; split; try easy; now intros [? _].
  - destruct (isspace c) eqn:Ec; cbn [andb].
    + destruct cur; [apply IH|]. split; [discriminate|now intros [? _]].
    + rewrite IH. split; [|now intros [_ ?]]. intros [E _].
      now apply append_cons_not_empty in E.
Qed.

Lemma join_words_empty (ws : list string) :
  Forall is_word ws -> join " " ws = "" -> ws = [].
Proof.
  destruct ws as [|w ws]; [reflexivity|]. intros H E. exfalso.
  inversion H as [|? ? [Hne _] _]; subst. destruct w as [|a w]; [contradiction|].
  destruct ws; discriminate.
Qed.

Lemma clean_text_is_tidy (s : string) : tidy (clean_text s) = true.
Proof.
  unfold clean_text, tidy, Str.words.
  pose proof (StrFacts.words_from_words s "" eq_refl) as Hw.
  destruct (Str.words_from "" s) as [|w ws] eqn:E; [reflexivity|].
  rewrite (tidy_join (w :: ws) Hw) by discriminate.
  now destruct (Str.join " " (w :: ws)).
Qed.

End CleanFacts.

(** ** Further facts: the deduplicator *)

Module DedupeFacts.
Import Str StrFacts.

Lemma join_cons_head (c : ascii) (l : list string) :
  l <> [] -> join ". " (cons_head c l) = String c (join ". " l).
Proof. destruct l as [|w [|y l]]; [contradiction|reflexivity|reflexivity]. Qed.

(** Joining the pieces of a split gives the string back. *)
Lemma join_split (s : string) : join ". " (split s ". ") = s.
Proof.
  induction s using split_ind.
  - reflexivity.
  - rewrite split_sep. destruct (split s ". ") as [|w ws] eqn:E; [now apply split_not_nil in E|].
    change (join ". " ("" :: w :: ws)) with (String "." (String " " (join ". " (w :: ws)))).
    now rewrite IHs.
  - rewrite split_other by assumption. rewrite join_cons_head by apply split_not_nil.
    now rewrite IHs.
Qed.

Lemma length_append (s t : string) :
  String.length (s ++ t) = String.length s + String.length t.
Proof. induction s; cbn; [reflexivity|now rewrite IHs]. Qed.

Lemma join_length (l : list string) :
  l <> [] -> String.length (join ". " l) + 2 = total_length l.
Proof.
  induction l as [|x l IH]; [contradiction|]. intros _.
  destruct l as [|y l].
  - unfold total_length. cbn [join fold_right]. lia.
  - change (join ". " (x :: y :: l)) with (x ++ String "." (String " " (join ". " (y :: l))))%string.
    rewrite length_append. specialize (IH ltac:(discriminate)).
    unfold total_length in *. cbn [String.length fold_right] in *. lia.
Qed.

Lemma total_length_app (l1 l2 : list string) :
  total_length (l1 ++ l2) = total_length l1 + total_length l2.
Proof.
  induction l1 as [|x l1 IH]; [reflexivity|].
  cbn [app]. unfold total_length in *. cbn [fold_right]. rewrite IH. lia.
Qed.

(** Distinct pieces taken from a list weigh no more than the list. *)
Lemma total_length_incl (l' l : list string) :
  NoDup l' -> incl l' l -> total_length l' <= total_length l.
Proof.
  revert l. induction l' as [|x l' IH]; intros l Hnd Hincl; [cbn; lia|].
  inversion Hnd as [|? ? Hx Hnd']; subst.
  destruct (in_split x l (Hincl x (or_introl eq_refl))) as (l1 & l2 & ->).
  assert (Hrest : incl l' (l1 ++ l2)).
  { intros y Hy. specialize (Hincl y (or_intror Hy)).
    apply in_app_or in Hincl as [H|[H|H]]; apply in_or_app; [now left| |now right].
    subst. contradiction. }
  specialize (IH _ Hnd' Hrest). rewrite total_length_app in *.
  unfold total_length in *. cbn [fold_right]. lia.
Qed.

End DedupeFacts.

(** ** Further facts: the walk of the schema *)

Section WalkFacts.

Variable summarizer : string -> Z -> Z -> bool -> result (list dict).
Variable repr : value -> string.
Variable text : string.

Local Abbreviation call p := (summarize_text summarizer repr text (VStr p) 150 30).

Ltac destruct_calls l :=
  lazymatch l with
  | ?p :: ?l' =>
      destruct (summarize_text summarizer repr text (VStr p) 150 30);
      [destruct_calls l'|reflexivity]
  | _ => reflexivity
  end.

(** [structured_summary] makes its eight calls in the order of the schema
    and stops at the first that raises. *)
Lemma structured_summary_outcome :
  structured_summary summarizer repr text
  = match first_failure (map (fun p => call p) (prompts (VDict sections))) with
    | Some e => Raise e
    | None => Return (map_leaves (fun p => value_of (call p)) (VDict sections))
    end.
Proof.
  unfold structured_summary, structured_summary_over.
  cbn -[summarize_text].
  let l := eval compute in (prompts (VDict sections)) in destruct_calls l.
Qed.

Lemma first_failure_app {A : Type} (before after : list (result A)) (e : exn) :
  Forall (fun r => exists v, r = Return v) before ->
  first_failure (before ++ Raise e :: after) = Some e.
Proof.
  induction 1 as [|r before [v ->] _ IH]; [reflexivity|exact IH].
Qed.

Lemma first_failure_none {A : Type} (l : list (result A)) :
  first_failure l = None <-> Forall (fun r => exists v, r = Return v) l.
Proof.
  induction l as [|[v|e] l IH]; cbn.
  - split; [constructor|reflexivity].
  - rewrite IH. split; [intros H; constructor; [now exists v|assumption]|].
    intros H. now inversion H.
  - split; [discriminate|]. intros H. inversion H as [|? ? [v Hv] _]. discriminate.
Qed.

Lemma first_failure_some {A : Type} (l : list (result A)) (e : exn) :
  first_failure l = Some e -> In (Raise e) l.
Proof.
  induction l as [|[v|e'] l IH]; cbn; [discriminate| |].
  - intros H. right. now apply IH.
  - intros [= ->]. now left.
Qed.

Lemma summarize_text_raise_inv (prompt : value) (max_length min_length : Z) (e : exn) :
  summarize_text summarizer repr text prompt max_length min_length = Raise e ->
  (exists cause,
     is_exception cause = true /\
     e = RuntimeError ("Summarization failed: " ++ exn_str repr cause) (Some cause) /\
     (summarizer (format repr prompt ++ newline ++ text)%string max_length min_length false
      = Raise cause \/
      cause = IndexError "list index out of range" \/
      cause = KeyError "summary_text")) \/
  (is_exception e = false /\
   summarizer (format repr prompt ++ newline ++ text)%string max_length min_length false
   = Raise e).
Proof.
  unfold summarize_text.
  destruct (summarizer _ max_length min_length false) as [[|best rest]|cause] eqn:E; cbn.
  - intros [= <-]. left. exists (IndexError "list index out of range").
    split; [reflexivity|]. split; [reflexivity|]. now right; left.
  - destruct (Py.lookup best "summary_text"); cbn; [discriminate|].
    intros [= <-]. left. exists (KeyError "summary_text").
    split; [reflexivity|]. split; [reflexivity|]. now right; right.
  - destruct (is_exception cause) eqn:Ec; intros [= <-].
    + left. exists cause. split; [assumption|]. split; [reflexivity|]. now left.
    + right. now split.
Qed.

Lemma summarize_text_return_str (prompt : value) (max_length min_length : Z) (v : value) :
  pipeline_contract summarizer ->
  summarize_text summarizer repr text prompt max_length min_length = Return v -> is_str v.
Proof.
  intros Hpipe. unfold summarize_text.
  destruct (summarizer _ max_length min_length false) as [out|cause] eqn:E;
    [|cbn; destruct (is_exception cause); discriminate].
  destruct (Hpipe _ _ _ _ _ E) as [s Hs].
  destruct out as [|best rest]; [discriminate|]. cbn in Hs |- *.
  destruct (Py.lookup best "summary_text") as [[]|]; try discriminate.
  injection Hs as ->. intros [= <-]. now exists s.
Qed.

Lemma calls_return_iff :
  first_failure (map (fun p => call p) (prompts (VDict sections))) = None <->
  forall p, In p (prompts (VDict sections)) -> exists v, call p = Return v.
Proof.
  rewrite first_failure_none, Forall_map, Forall_forall. reflexivity.
Qed.

Lemma structured_summary_return_inv (r : value) :
  structured_summary summarizer repr text = Return r ->
  (forall p, In p (prompts (VDict sections)) -> exists v, call p = Return v) /\
  r = map_leaves (fun p => value_of (call p)) (VDict sections).
Proof.
  rewrite structured_summary_outcome.
  destruct (first_failure _) eqn:E; [discriminate|]. intros [= <-].
  split; [now apply calls_return_iff|reflexivity].
Qed.

Lemma structured_summary_raise_inv (e : exn) :
  structured_summary summarizer repr text = Raise e ->
  exists p, In p (prompts (VDict sections)) /\ call p = Raise e.
Proof.
  rewrite structured_summary_outcome.
  destruct (first_failure _) eqn:E; [|discriminate]. intros [= <-].
  apply first_failure_some, in_map_iff in E as (p & Ep & Hp). now exists p.
Qed.

(** With a pipeline that keeps its interface, what [structured_summary]
    returns is a valid review. *)
Lemma structured_summary_valid (r : value) :
  pipeline_contract summarizer ->
  structured_summary summarizer repr text = Return r -> valid_review r.
Proof.
  intros Hpipe H. apply structured_summary_return_inv in H as [Hall ->].
  set (summary := fun p => match call p with Return (VStr s) => s | _ => "" end).
  assert (E : structured_summary summarizer repr text
              = Return (map_leaves (fun p => VStr (summary p)) (VDict sections))).
  { apply structured_summary_over_map; [reflexivity|apply le_n|].
    intros p Hp. destruct (Hall p Hp) as [v Ev].
    destruct (summarize_text_return_str _ _ _ _ Hpipe Ev) as [s ->].
    unfold summary. now rewrite Ev. }
  apply structured_summary_return_inv in E as [_ E]. rewrite <- E. split; reflexivity.
Qed.

(** A path of the schema that leads to a prompt leads to one of its
    prompts. *)
Lemma lookup_path_prompt (path : list string) :
  forall (v : value) (q : string), lookup_path v path = Some (VStr q) -> In q (prompts v).
Proof.
  induction path as [|k path IH]; intros v q.
  - cbn. intros [= ->]. now left.
  - destruct v as [| |d]; try discriminate. cbn [lookup_path].
    destruct (Py.lookup d k) as [c|] eqn:E; [|discriminate]. intros H.
    apply (prompts_dict d k q c); [now apply DictFacts.lookup_In|now apply IH].
Qed.

End WalkFacts.

(** ** Further facts: the aggregator *)

Section MoreAggregateFacts.

Variable set_iter : list string -> list string.

Lemma add_lists_nil_l (x : lists) : add_lists no_lists x = x.
Proof. now destruct x. Qed.

Lemma gather_cons (r : value) (l : list value) :
  gather (r :: l) = add_lists (review_lists r) (gather l).
Proof. reflexivity. Qed.

Lemma gather_app (l1 l2 : list value) :
  gather (l1 ++ l2) = add_lists (gather l1) (gather l2).
Proof.
  induction l1 as [|r l1 IH].
  - change (gather []) with no_lists. now rewrite add_lists_nil_l.
  - change ((r :: l1) ++ l2) with (r :: (l1 ++ l2)).
    now rewrite !gather_cons, IH, add_lists_assoc.
Qed.

Lemma get_slot_add (sl : slot) (x y : lists) :
  get_slot sl (add_lists x y) = get_slot sl x ++ get_slot sl y.
Proof. now destruct sl, x, y. Qed.

Lemma leaf_merged (sl : slot) (x : lists) :
  leaf (merged set_iter x) (slot_path sl)
  = Some (remove_repeated_sentences set_iter (Str.join " " (strings (get_slot sl x)))).
Proof. now destruct sl, x. Qed.

Lemma merged_valid (x : lists) : valid_review (merged set_iter x).
Proof. split; reflexivity. Qed.

Lemma strings_app (l1 l2 : list value) : strings (l1 ++ l2) = strings l1 ++ strings l2.
Proof.
  induction l1 as [|v l1 IH]; [reflexivity|].
  destruct v; cbn [app strings]; now rewrite IH.
Qed.

(** The leaves of valid reviews, slot by slot, are what the first loop
    gathers. *)
Lemma gather_valid (reviews : list value) :
  Forall valid_review reviews ->
  exists xs : list (leaves string),
    Forall2 (fun r x => forall sl, leaf r (slot_path sl) = Some (get_slot sl x)) reviews xs /\
    forall sl, strings (get_slot sl (gather reviews)) = map (get_slot sl) xs.
Proof.
  induction 1 as [|r reviews Hr _ (xs & Hxs & Hg)].
  - exists []. split; [constructor|]. now intros [].
  - destruct (valid_review_leaves r Hr) as (x & Hleaf & Hlists).
    exists (x :: xs). split; [now constructor|].
    intros sl. rewrite gather_cons, get_slot_add, strings_app, Hg, Hlists.
    now destruct sl, x.
Qed.

Lemma for_each_app {A S : Type} (l1 l2 : list A) (body : S -> A -> result S) (s : S) :
  for_each (l1 ++ l2) body s = s' <- for_each l1 body s ;; for_each l2 body s'.
Proof.
  revert s. induction l1 as [|a l1 IH]; intros s; [reflexivity|].
  cbn [app for_each]. destruct (body s a); cbn [bind]; [apply IH|reflexivity].
Qed.

Lemma for_each_raise {A S : Type} (l : list A) (body : S -> A -> result S) (s : S)
    (a : A) (e : exn) :
  body s a = Raise e -> for_each (a :: l) body s = Raise e.
Proof. intros H. cbn [for_each]. now rewrite H. Qed.

(** The lists of [aggregated] after a run of reviews that the loop takes. *)
Lemma collect_prefix (good rest : list value) :
  Forall review_ok good ->
  for_each (good ++ rest) collect aggregated_init
  = for_each rest collect (tree_of (leaves_map VList (gather good))).
Proof.
  intros H. rewrite for_each_app. change aggregated_init with (tree_of (leaves_map VList no_lists)).
  rewrite gather_ok by assumption. cbn [bind]. now rewrite add_lists_nil_l.
Qed.

Lemma partial_reviews_ok (reviews : list value) :
  Forall partial_review reviews -> Forall review_ok reviews.
Proof. intros H. now apply all_strings_gather in H. Qed.

Lemma not_schema_key (k : string) :
  ~ In k (Py.keys methods_sections) ->
  String.eqb k "1. Research Question" = false /\
  String.eqb k "2. Search Strategy" = false /\
  String.eqb k "3. Inclusion and Exclusion Criteria" = false /\
  String.eqb k "5. Data Extraction" = false /\
  String.eqb k "6. Data Synthesis" = false.
Proof.
  intros H. repeat split; apply String.eqb_neq; intros ->; apply H; cbn; tauto.
Qed.

Lemma collect_entry_unknown (x : lists) (k : string) (v : value) :
  ~ In k (Py.keys methods_sections) ->
  collect_entry (tree_of (leaves_map VList x)) (k, v) = Raise (KeyError k).
Proof.
  intros H. apply not_schema_key in H as (H1 & H2 & H3 & H4 & H5).
  destruct x. unfold collect_entry, criteria_key. rewrite H3.
  cbn. now rewrite H1, H2, H3, H4, H5.
Qed.

Lemma join_dedupe_cases (l : list value) :
  Forall is_str l \/ exists msg, join_dedupe set_iter (VList l) = Raise (TypeError msg).
Proof.
  unfold join_dedupe. cbn [Py.join]. generalize 0.
  induction l as [|v l IH]; intros i; [left; constructor|].
  destruct v as [s| |].
  - destruct (IH (S i)) as [H|[msg H]].
    + left. constructor; [now exists s|assumption].
    + right. exists msg. cbn [Py.str_items].
      destruct (Py.str_items (S i) l); [discriminate|]. cbn in *. congruence.
  - right. eexists. reflexivity.
  - right. eexists. reflexivity.
Qed.

Lemma finish_cases (x : lists) :
  (all_strings x /\ finish set_iter (tree_of (leaves_map VList x)) = Return (merged set_iter x)) \/
  exists msg, finish set_iter (tree_of (leaves_map VList x)) = Raise (TypeError msg).
Proof.
  destruct x as [la lq ls li le lx ly lr].
  destruct (join_dedupe_cases la) as [Ha|[m Ha]];
    [|right; exists m; unfold finish; cbn -[join_dedupe]; now rewrite Ha].
  destruct (join_dedupe_cases lq) as [Hq|[m Hq]];
    [|right; exists m; apply (join_dedupe_strings set_iter) in Ha; unfold finish, finish_entry;
      cbn -[join_dedupe]; rewrite Ha; cbn -[join_dedupe]; now rewrite Hq].
  destruct (join_dedupe_cases ls) as [Hs|[m Hs]];
    [|right; exists m; apply (join_dedupe_strings set_iter) in Ha, Hq; unfold finish, finish_entry;
      cbn -[join_dedupe]; rewrite Ha; cbn -[join_dedupe]; rewrite Hq;
      cbn -[join_dedupe]; now rewrite Hs].
  destruct (join_dedupe_cases li) as [Hi|[m Hi]];
    [|right; exists m; apply (join_dedupe_strings set_iter) in Ha, Hq, Hs; unfold finish, finish_entry;
      cbn -[join_dedupe]; rewrite Ha; cbn -[join_dedupe]; rewrite Hq;
      cbn -[join_dedupe]; rewrite Hs; cbn -[join_dedupe]; now rewrite Hi].
  destruct (join_dedupe_cases le) as [He|[m He]];
    [|right; exists m; apply (join_dedupe_strings set_iter) in Ha, Hq, Hs, Hi; unfold finish, finish_entry;
      cbn -[join_dedupe]; rewrite Ha; cbn -[join_dedupe]; rewrite Hq;
      cbn -[join_dedupe]; rewrite Hs; cbn -[join_dedupe]; rewrite Hi;
      cbn -[join_dedupe]; now rewrite He].
  destruct (join_dedupe_cases lx) as [Hx|[m Hx]];
    [|right; exists m; apply (join_dedupe_strings set_iter) in Ha, Hq, Hs, Hi, He;
      unfold finish, finish_entry;
      cbn -[join_dedupe]; rewrite Ha; cbn -[join_dedupe]; rewrite Hq;
      cbn -[join_dedupe]; rewrite Hs; cbn -[join_dedupe]; rewrite Hi;
      cbn -[join_dedupe]; rewrite He; cbn -[join_dedupe]; now rewrite Hx].
  destruct (join_dedupe_cases ly) as [Hy|[m Hy]];
    [|right; exists m; apply (join_dedupe_strings set_iter) in Ha, Hq, Hs, Hi, He, Hx;
      unfold finish, finish_entry;
      cbn -[join_dedupe]; rewrite Ha; cbn -[join_dedupe]; rewrite Hq;
      cbn -[join_dedupe]; rewrite Hs; cbn -[join_dedupe]; rewrite Hi;
      cbn -[join_dedupe]; rewrite He; cbn -[join_dedupe]; rewrite Hx;
      cbn -[join_dedupe]; now rewrite Hy].
  destruct (join_dedupe_cases lr) as [Hr|[m Hr]];
    [|right; exists m; apply (join_dedupe_strings set_iter) in Ha, Hq, Hs, Hi, He, Hx, Hy;
      unfold finish, finish_entry;
      cbn -[join_dedupe]; rewrite Ha; cbn -[join_dedupe]; rewrite Hq;
      cbn -[join_dedupe]; rewrite Hs; cbn -[join_dedupe]; rewrite Hi;
      cbn -[join_dedupe]; rewrite He; cbn -[join_dedupe]; rewrite Hx;
      cbn -[join_dedupe]; rewrite Hy; cbn -[join_dedupe]; now rewrite Hr].
  assert (H : all_strings (Leaves la lq ls li le lx ly lr)) by (intros sl; now destruct sl).
  left. split; [assumption|now apply finish_ok].
Qed.

Lemma Forall2_leaf_slot (sl : slot) (reviews : list value) (xs : list (leaves string)) :
  Forall2 (fun r x => forall sl, leaf r (slot_path sl) = Some (get_slot sl x)) reviews xs ->
  Forall2 (fun r s => leaf r (slot_path sl) = Some s) reviews (map (get_slot sl) xs).
Proof. induction 1; constructor; auto. Qed.

(** A review within the schema that has no entry under a key of
    ['B: Methods'] adds nothing to the lists read from that entry. *)
Lemma review_lists_missing_entry (r : value) (sl : slot) (k : string) :
  partial_review r -> entry_key sl = Some k ->
  lookup_path r ["B: Methods"; k] = None ->
  get_slot sl (review_lists r) = [].
Proof.
  intros Hr Hk Hnone. apply within_dict in Hr as (top & -> & _ & Htop).
  assert (E : get_slot sl (review_lists (VDict top))
              = get_slot sl (methods_lists (methods_of top))).
  { unfold review_lists. destruct (methods_lists (methods_of top)), sl; try reflexivity;
      discriminate. }
  rewrite E. unfold methods_of. cbn [lookup_path] in Hnone.
  destruct (Py.lookup top "B: Methods") as [v|] eqn:Ev; [|now destruct sl].
  destruct (entries_within_lookup _ _ _ _ Htop Ev) as (sv & Es & W).
  cbn in Es. injection Es as <-.
  apply within_dict in W as (entries & -> & Hu & W).
  rewrite methods_lists_lookup; [|assumption|now apply methods_entries].
  destruct (Py.lookup entries k) eqn:Ek; [discriminate|].
  unfold methods_lookup, entry_at, criteria_at, criteria_key.
  destruct sl; try discriminate; injection Hk as <-; cbn [get_slot question_leaf search_leaf
    inclusion_leaf exclusion_leaf extraction_leaf synthesis_leaf]; now rewrite Ek.
Qed.

End MoreAggregateFacts.

(** ** Further facts: extraction and the batch *)

Section BatchFacts.

Variable summarizer : string -> Z -> Z -> bool -> result (list dict).
Variable repr : value -> string.
Variable set_iter : list string -> list string.
Variable upload : Type.
Variable name : upload -> string.
Variable page : Type.
Variable PdfReader : upload -> result (list page).
Variable extract_text : page -> result string.
Variable json_dumps : value -> string.
Variable absolute : string -> string.

Local Abbreviation extract := (extract_text_from_pdf repr upload name page PdfReader extract_text).
Local Abbreviation review :=
  (review_file summarizer repr upload name page PdfReader extract_text).
Local Abbreviation process :=
  (process_files summarizer repr upload name page PdfReader extract_text).
Local Abbreviation loop :=
  (process_loop summarizer repr upload name page PdfReader extract_text).
Local Abbreviation script :=
  (main summarizer repr set_iter upload name page PdfReader extract_text json_dumps absolute).
Local Abbreviation read_pages :=
  (fun (text : string) (p : page) => t <- extract_text p ;; Return (text ++ t)%string).

Lemma concat_empty_cons (t : string) (texts : list string) :
  String.concat "" (t :: texts) = (t ++ String.concat "" texts)%string.
Proof. destruct texts; cbn; [now rewrite StrFacts.append_nil_r|reflexivity]. Qed.

(** The loop over the pages appends their texts in order. *)
Lemma read_pages_all (pages : list page) (texts : list string) (text : string) :
  Forall2 (fun p t => extract_text p = Return t) pages texts ->
  for_each pages read_pages text = Return (text ++ String.concat "" texts)%string.
Proof.
  intros H. revert text. induction H as [|p t pages texts Hp _ IH]; intros text.
  - cbn. now rewrite StrFacts.append_nil_r.
  - cbn [for_each]. rewrite Hp. cbn [bind]. rewrite IH, concat_empty_cons.
    now rewrite StrFacts.append_assoc.
Qed.

Lemma read_pages_failure (before after : list page) (p : page) (cause : exn) (text : string) :
  Forall (fun q => exists t, extract_text q = Return t) before ->
  extract_text p = Raise cause ->
  for_each (before ++ p :: after) read_pages text = Raise cause.
Proof.
  intros H Hp. revert text. induction H as [|q before [t Hq] _ IH]; intros text.
  - cbn. now rewrite Hp.
  - cbn [app for_each]. rewrite Hq. cbn [bind]. apply IH.
Qed.

Lemma read_pages_raise_inv (pages : list page) (text : string) (cause : exn) :
  for_each pages read_pages text = Raise cause ->
  exists p, In p pages /\ extract_text p = Raise cause.
Proof.
  revert text. induction pages as [|p pages IH]; intros text; [discriminate|].
  cbn [for_each]. destruct (extract_text p) as [t|e] eqn:E; cbn [bind].
  - intros H. destruct (IH _ H) as (q & Hq & Eq). exists q. split; [now right|assumption].
  - intros [= ->]. exists p. split; [now left|assumption].
Qed.

(** Where an exception that leaves [extract_text_from_pdf] comes from. *)
Lemma extract_raise_inv (f : upload) (e : exn) :
  extract f = Raise e ->
  exists cause,
    (PdfReader f = Raise cause \/
     exists pages p,
       PdfReader f = Return pages /\ In p pages /\ extract_text p = Raise cause) /\
    e = if is_exception cause
        then OtherError "ValueError"
               ("Error reading " ++ name f ++ ": " ++ exn_str repr cause)
        else cause.
Proof.
  unfold extract_text_from_pdf. destruct (PdfReader f) as [pages|cause] eqn:Er.
  - cbn [bind]. destruct (for_each pages _ "") as [t|cause] eqn:E; [discriminate|].
    cbn [try_except]. intros H. exists cause. split.
    + right. destruct (read_pages_raise_inv pages "" cause E) as (p & Hin & Hp).
      now exists pages, p.
    + destruct (is_exception cause); now injection H.
  - cbn [bind try_except]. intros H. exists cause. split; [now left|].
    destruct (is_exception cause); now injection H.
Qed.

(** An exception outside [Exception] that leaves the processing of a
    file was raised by the reader, by a page or by the pipeline. *)
Lemma review_fatal_inv (f : upload) (e : exn) :
  review f = Raise e -> is_exception e = false ->
  PdfReader f = Raise e \/
  (exists pages p, PdfReader f = Return pages /\ In p pages /\ extract_text p = Raise e) \/
  (exists input, summarizer input 150%Z 30%Z false = Raise e).
Proof.
  unfold review_file. destruct (extract f) as [t|e'] eqn:E; cbn [bind].
  - intros H He. right; right.
    apply structured_summary_raise_inv in H as (p & _ & H).
    apply summarize_text_raise_inv in H as [(cause & _ & -> & _)|[_ H]]; [discriminate|].
    eexists. exact H.
  - intros [= ->] He. apply extract_raise_inv in E as (cause & Hc & E).
    destruct (is_exception cause) eqn:Ec; [subst e; discriminate|]. subst cause.
    destruct Hc as [Hc|Hc]; [now left|right; now left].
Qed.

(** What one file adds to the results, to the errors and to the
    successes shown. *)
Local Abbreviation outcome_results :=
  (fun f => match review f with Return r => [r] | Raise _ => [] end).
Local Abbreviation outcome_errors :=
  (fun f => match review f with
            | Return _ => []
            | Raise e => [("Failed to process " ++ name f ++ ": " ++ exn_str repr e)%string]
            end).
Local Abbreviation outcome_successes :=
  (fun f => match review f with
            | Return _ => [("Review completed for " ++ name f)%string]
            | Raise _ => []
            end).

Ltac loop_step items IH :=
  induction items as [|[i f] items IH]; intros results shown;
  [cbn; rewrite ?app_nil_r; try lia; reflexivity|];
  cbn [process_loop map snd first_fatal before_fatal flat_map length];
  unfold process_file;
  destruct (review f) as [r|e] eqn:Ef; [|destruct (is_exception e)];
  cbn [fst snd flat_map app length]; rewrite ?Ef, ?IH.

Lemma process_loop_stopped (n : nat) (items : list (nat * upload)) :
  forall (results : list value) (shown : list event),
    snd (loop n items (results, shown)) = first_fatal review (map snd items).
Proof. loop_step items IH; reflexivity. Qed.

Lemma process_loop_results (n : nat) (items : list (nat * upload)) :
  forall (results : list value) (shown : list event),
    fst (fst (loop n items (results, shown)))
    = results ++ flat_map outcome_results (before_fatal review (map snd items)).
Proof. loop_step items IH; now rewrite <- ?app_assoc, ?app_nil_r. Qed.

Lemma process_loop_errors (n : nat) (items : list (nat * upload)) :
  forall (results : list value) (shown : list event),
    errors_shown (snd (fst (loop n items (results, shown))))
    = errors_shown shown ++ flat_map outcome_errors (before_fatal review (map snd items)).
Proof.
  loop_step items IH; unfold errors_shown; rewrite ?flat_map_app; cbn;
    now rewrite ?app_nil_r, <- ?app_assoc.
Qed.

Lemma process_loop_successes (n : nat) (items : list (nat * upload)) :
  forall (results : list value) (shown : list event),
    successes_shown (snd (fst (loop n items (results, shown))))
    = successes_shown shown
      ++ flat_map outcome_successes (before_fatal review (map snd items)).
Proof.
  loop_step items IH; unfold successes_shown; rewrite ?flat_map_app; cbn;
    now rewrite ?app_nil_r, <- ?app_assoc.
Qed.

Lemma process_loop_length (n : nat) (items : list (nat * upload)) :
  forall (results : list value) (shown : list event),
    length (snd (fst (loop n items (results, shown))))
    = length shown + 2 * length (before_fatal review (map snd items))
      + match first_fatal review (map snd items) with Some _ => 1 | None => 0 end.
Proof. loop_step items IH; rewrite ?length_app; cbn [length]; lia. Qed.

Lemma enumerate_files (files : list upload) : map snd (enumerate files) = files.
Proof.
  unfold enumerate. generalize 0. induction files as [|f files IH]; intros start; [reflexivity|].
  cbn. now rewrite IH.
Qed.

Lemma process_results (files : list upload) :
  fst (fst (process files)) = flat_map outcome_results (before_fatal review files).
Proof. unfold process_files. now rewrite process_loop_results, enumerate_files. Qed.

Lemma process_stopped (files : list upload) : snd (process files) = first_fatal review files.
Proof. unfold process_files. now rewrite process_loop_stopped, enumerate_files. Qed.

Lemma before_fatal_incl {A B : Type} (g : A -> result B) (l : list A) (x : A) :
  In x (before_fatal g l) -> In x l.
Proof.
  induction l as [|y l IH]; [contradiction|]. cbn [before_fatal].
  destruct (g y) as [b|e]; [|destruct (is_exception e)]; cbn;
    intros H; try contradiction; destruct H as [->|H]; auto.
Qed.

Lemma first_fatal_some {A B : Type} (g : A -> result B) (l : list A) (e : exn) :
  first_fatal g l = Some e -> exists x, In x l /\ g x = Raise e /\ is_exception e = false.
Proof.
  induction l as [|y l IH]; [discriminate|]. cbn [first_fatal].
  destruct (g y) as [b|e'] eqn:E; [|destruct (is_exception e') eqn:Ee].
  - intros H. destruct (IH H) as (x & Hx & Hg). exists x. split; [now right|assumption].
  - intros H. destruct (IH H) as (x & Hx & Hg). exists x. split; [now right|assumption].
  - intros [= ->]. exists y. split; [now left|]. now split.
Qed.

Lemma first_fatal_none {A B : Type} (g : A -> result B) (l : list A) :
  (forall x e, In x l -> g x = Raise e -> is_exception e = true) ->
  first_fatal g l = None /\ before_fatal g l = l.
Proof.
  induction l as [|y l IH]; [easy|]. intros H. cbn [first_fatal before_fatal].
  destruct (IH (fun x e Hx => H x e (or_intror Hx))) as [E1 E2].
  destruct (g y) as [b|e] eqn:E; [now rewrite E1, E2|].
  now rewrite (H y e (or_introl eq_refl) E), E1, E2.
Qed.

(** With a pipeline that keeps its interface, every review collected is
    valid. *)
Lemma process_results_valid (files : list upload) :
  pipeline_contract summarizer -> Forall valid_review (fst (fst (process files))).
Proof.
  intros Hpipe. rewrite process_results. apply Forall_forall. intros r Hr.
  apply in_flat_map in Hr as (f & _ & Hr).
  destruct (review f) as [r'|] eqn:E; [|contradiction].
  destruct Hr as [<-|[]]. unfold review_file in E.
  destruct (extract f); [|discriminate]. cbn [bind] in E.
  now apply (structured_summary_valid summarizer repr _ _ Hpipe E).
Qed.

Lemma aggregate_valid_reviews (results : list value) :
  Forall valid_review results ->
  exists t, aggregate_reviews set_iter results = Return t /\ valid_review t.
Proof.
  intros H.
  assert (Hp : Forall partial_review results)
    by (eapply Forall_impl; [|exact H]; now intros r [Hr _]).
  apply all_strings_gather in Hp as [Hok Hstr].
  exists (merged set_iter (gather results)).
  split; [now apply aggregate_reviews_merged|split; reflexivity].
Qed.

Lemma aggregate_reviews_none :
  set_contract set_iter ->
  aggregate_reviews set_iter [] = Return (review_of (leaves_pure "")).
Proof.
  intros Hset. rewrite aggregate_reviews_merged; [|constructor|apply all_strings_none].
  unfold merged. cbn [gather fold_right]. leaves_simpl. cbn [strings Str.join].
  now rewrite (remove_repeated_atomic set_iter Hset "" StrFacts.atomic_empty).
Qed.

(** The end of the script after a loop that no exception left. *)
Lemma main_shown (files : list upload) (t : value) :
  files <> [] ->
  snd (process files) = None ->
  aggregate_reviews set_iter (fst (fst (process files))) = Return t ->
  snd (script files true) = Return tt /\
  In (StJson t) (fst (script files true)) /\
  In (FileWrite "systematic_review.json" (json_dumps t)) (fst (script files true)).
Proof.
  intros Hne Hs E. unfold main. destruct files as [|f files]; [contradiction|].
  destruct (process (f :: files)) as [[results shown] stopped].
  cbn [fst snd] in E, Hs. subst stopped. rewrite E.
  cbn [fst snd]. split; [reflexivity|].
  split; do 2 (apply in_or_app; right); cbn; tauto.
Qed.

(** The end of the script after a loop that an exception left. *)
Lemma main_stopped (files : list upload) (e : exn) :
  snd (process files) = Some e -> snd (script files true) = Raise e.
Proof.
  intros Hs. unfold main. destruct files as [|f files]; [discriminate|].
  destruct (process (f :: files)) as [[results shown] stopped].
  cbn [snd] in Hs. now subst stopped.
Qed.

End BatchFacts.

(** ** Further properties of the program *)

(** *** [clean_text] *)

(** X1. [clean_text] keeps the words of the text and their order: splitting
    the cleaned text on whitespace gives the same words as splitting the
    text. *)
Theorem clean_text_keeps_words (s : string) : Str.words (clean_text s) = Str.words s.
Proof.
  unfold clean_text. apply StrFacts.words_join. now apply StrFacts.words_from_words.
Qed.

(** X2. What [clean_text] returns is tidy: it has no whitespace but single
    spaces, and those only between two words.  The texts that
    [clean_text] leaves as they are, are the tidy ones. *)
Theorem clean_text_fixed_iff_tidy (s : string) :
  tidy (clean_text s) = true /\ (clean_text s = s <-> tidy s = true).
Proof.
  split; [apply CleanFacts.clean_text_is_tidy|]. split.
  - intros E. rewrite <- E. apply CleanFacts.clean_text_is_tidy.
  - unfold tidy, clean_text, Str.words. destruct s as [|c s]; [reflexivity|].
    intros H. now apply (CleanFacts.tidy_from_words (String c s) "").
Qed.

(** X3. [clean_text] returns the empty string for the texts of whitespace
    only, the empty one among them, and for no other. *)
Theorem clean_text_empty_iff_blank (s : string) : clean_text s = "" <-> blank s = true.
Proof.
  unfold clean_text, Str.words. split.
  - intros E. apply CleanFacts.join_words_empty in E.
    + now apply CleanFacts.words_from_nil in E.
    + now apply StrFacts.words_from_words.
  - intros H. assert (E : Str.words_from "" s = []) by now apply CleanFacts.words_from_nil.
    now rewrite E.
Qed.

(** *** [remove_repeated_sentences] *)

(** X4. A text without the separator ['. '] is one sentence, and
    [remove_repeated_sentences] returns it as it is, whatever the order in
    which the set is iterated. *)
Theorem remove_repeated_sentences_single (set_iter : list string -> list string) (s : string) :
  set_contract set_iter -> Str.split s ". " = [s] ->
  remove_repeated_sentences set_iter s = s.
Proof. intros Hset H. now apply remove_repeated_atomic. Qed.

Lemma remove_repeated_sentences_single_witness :
  remove_repeated_sentences last_seen "No separator here." = "No separator here.".
Proof.
  apply remove_repeated_sentences_single; [exact last_seen_ok|reflexivity].
Defined.

(** X5. When the sentences of a text are pairwise distinct,
    [remove_repeated_sentences] returns the same sentences, in the order
    in which the set is iterated. *)
Theorem remove_repeated_sentences_distinct (set_iter : list string -> list string) (s : string) :
  set_contract set_iter -> NoDup (Str.split s ". ") ->
  Permutation (Str.split (remove_repeated_sentences set_iter s) ". ") (Str.split s ". ").
Proof.
  intros Hset H. rewrite (split_remove_repeated set_iter Hset).
  now apply set_iter_permutation.
Qed.

Lemma remove_repeated_sentences_distinct_witness :
  Permutation (Str.split (remove_repeated_sentences last_seen_rev "One. Two. Three") ". ")
              (Str.split "One. Two. Three" ". ").
Proof.
  apply remove_repeated_sentences_distinct; [exact last_seen_rev_ok|].
  vm_compute. repeat constructor; cbn; intuition discriminate.
Defined.

(** X6. [remove_repeated_sentences] never returns a longer text. *)
Theorem remove_repeated_sentences_length (set_iter : list string -> list string) (s : string) :
  set_contract set_iter ->
  String.length (remove_repeated_sentences set_iter s) <= String.length s.
Proof.
  intros Hset. unfold remove_repeated_sentences.
  pose proof (DedupeFacts.join_length (set_iter (Str.split s ". "))
                (set_iter_not_nil set_iter Hset _ (StrFacts.split_not_nil s))) as H1.
  pose proof (DedupeFacts.join_length (Str.split s ". ") (StrFacts.split_not_nil s)) as H2.
  rewrite DedupeFacts.join_split in H2.
  assert (H3 : total_length (set_iter (Str.split s ". ")) <= total_length (Str.split s ". ")).
  { apply DedupeFacts.total_length_incl; [apply Hset|]. intros x Hx. now apply Hset. }
  lia.
Qed.

Lemma remove_repeated_sentences_length_witness :
  String.length (remove_repeated_sentences last_seen "One. Two. One. Three")
  <= String.length "One. Two. One. Three".
Proof. apply remove_repeated_sentences_length. exact last_seen_ok. Defined.

(** *** [summarize_text] *)

(** X7. An exception that leaves [summarize_text] is a RuntimeError whose
    message is ['Summarization failed: '] followed by the text of its
    cause, where the cause is of [Exception] and is the exception of the
    pipeline, the IndexError of an empty result list or the KeyError of a
    first result without ['summary_text']; or it is an exception outside
    [Exception] that the pipeline raised, passed on as it is. *)
Theorem summarize_text_raises_runtime_error
    (summarizer : string -> Z -> Z -> bool -> result (list dict)) (repr : value -> string)
    (text : string) (prompt : value) (max_length min_length : Z) (e : exn) :
  summarize_text summarizer repr text prompt max_length min_length = Raise e ->
  (exists cause,
     is_exception cause = true /\
     e = RuntimeError ("Summarization failed: " ++ exn_str repr cause) (Some cause) /\
     (summarizer (format repr prompt ++ newline ++ text)%string max_length min_length false
      = Raise cause \/
      cause = IndexError "list index out of range" \/
      cause = KeyError "summary_text")) \/
  (is_exception e = false /\
   summarizer (format repr prompt ++ newline ++ text)%string max_length min_length false
   = Raise e).
Proof. apply summarize_text_raise_inv. Qed.

Lemma summarize_text_raises_runtime_error_witness :
  (exists cause,
     is_exception cause = true /\
     RuntimeError "Summarization failed: list index out of range"
       (Some (IndexError "list index out of range"))
     = RuntimeError ("Summarization failed: " ++ exn_str opaque_repr cause) (Some cause) /\
     (silent_pipeline (format opaque_repr (VStr "prompt") ++ newline ++ "text")%string
        150%Z 30%Z false = Raise cause \/
      cause = IndexError "list index out of range" \/
      cause = KeyError "summary_text")) \/
  (is_exception (RuntimeError "Summarization failed: list index out of range"
                   (Some (IndexError "list index out of range"))) = false /\
   silent_pipeline (format opaque_repr (VStr "prompt") ++ newline ++ "text")%string
     150%Z 30%Z false
   = Raise (RuntimeError "Summarization failed: list index out of range"
              (Some (IndexError "list index out of range")))).
Proof.
  apply (summarize_text_raises_runtime_error silent_pipeline opaque_repr
           "text" (VStr "prompt") 150 30). reflexivity.
Defined.

(** *** [structured_summary] *)

(** X8. [structured_summary] asks for the summaries in the order of the
    schema and stops at the first call that raises: when the calls for
    the prompts before [p] return and the call for [p] raises [e], it
    raises [e], whatever the calls for the later prompts would do. *)
Theorem structured_summary_first_failure
    (summarizer : string -> Z -> Z -> bool -> result (list dict)) (repr : value -> string)
    (text : string) (before after : list string) (p : string) (e : exn) :
  prompts (VDict sections) = before ++ p :: after ->
  (forall q, In q before ->
     exists v, summarize_text summarizer repr text (VStr q) 150 30 = Return v) ->
  summarize_text summarizer repr text (VStr p) 150 30 = Raise e ->
  structured_summary summarizer repr text = Raise e.
Proof.
  intros Hsplit Hbefore Hp. rewrite structured_summary_outcome, Hsplit, map_app.
  cbn [map]. rewrite Hp, first_failure_app; [reflexivity|].
  apply Forall_map, Forall_forall. exact Hbefore.
Qed.

Lemma structured_summary_first_failure_witness :
  structured_summary picky_pipeline opaque_repr "The text."
  = Raise (RuntimeError "Summarization failed: input too long"
             (Some (OtherError "ValueError" "input too long"))).
Proof.
  apply (structured_summary_first_failure picky_pipeline opaque_repr "The text."
           ["Provide a concise and clear summary of the document's key focus and purpose."]
           (tl (tl (prompts (VDict sections))))
           "What is the primary research question explicitly stated in the document?").
  - reflexivity.
  - intros q [<-|[]]. now exists (VStr "A summary.").
  - reflexivity.
Defined.

(** X9. [structured_summary] returns exactly when the call of
    [summarize_text] returns for each of the eight prompts of the
    schema. *)
Theorem structured_summary_returns_iff
    (summarizer : string -> Z -> Z -> bool -> result (list dict)) (repr : value -> string)
    (text : string) :
  (exists r, structured_summary summarizer repr text = Return r) <->
  (forall p, In p (prompts (VDict sections)) ->
     exists v, summarize_text summarizer repr text (VStr p) 150 30 = Return v).
Proof.
  split.
  - intros [r H]. now apply structured_summary_return_inv in H.
  - intros H. rewrite structured_summary_outcome.
    apply calls_return_iff in H. rewrite H. now eexists.
Qed.

(** X10. In the review that [structured_summary] returns, the value at
    the path of a prompt is what [summarize_text] returned for that
    prompt, be it a string or not. *)
Theorem structured_summary_leaves
    (summarizer : string -> Z -> Z -> bool -> result (list dict)) (repr : value -> string)
    (text : string) (r : value) (path : list string) (q : string) :
  structured_summary summarizer repr text = Return r ->
  lookup_path (VDict sections) path = Some (VStr q) ->
  exists v,
    summarize_text summarizer repr text (VStr q) 150 30 = Return v /\
    lookup_path r path = Some v.
Proof.
  intros H Hq. apply structured_summary_return_inv in H as [Hall ->].
  destruct (Hall q (lookup_path_prompt path _ q Hq)) as [v Ev]. exists v.
  split; [assumption|]. rewrite (lookup_path_map_leaves _ path _ q Hq). now rewrite Ev.
Qed.

Lemma structured_summary_leaves_witness :
  exists v,
    summarize_text list_pipeline opaque_repr
      "The text." (VStr "Summarize the primary findings and results of this review.") 150 30
    = Return v /\
    lookup_path
      (map_leaves (fun _ => VList []) (VDict sections)) ["D: Results"] = Some v.
Proof.
  apply (structured_summary_leaves list_pipeline
           opaque_repr "The text."); reflexivity.
Defined.

(** X11. An exception that leaves [structured_summary] is the
    RuntimeError of one of its calls of [summarize_text], around a cause
    of [Exception], or an exception outside [Exception] that the
    pipeline raised on one of the prompts, passed on as it is. *)
Theorem structured_summary_raises_runtime_error
    (summarizer : string -> Z -> Z -> bool -> result (list dict)) (repr : value -> string)
    (text : string) (e : exn) :
  structured_summary summarizer repr text = Raise e ->
  (exists cause,
     is_exception cause = true /\
     e = RuntimeError ("Summarization failed: " ++ exn_str repr cause) (Some cause)) \/
  (is_exception e = false /\
   exists p, In p (prompts (VDict sections)) /\
     summarizer (p ++ newline ++ text)%string 150%Z 30%Z false = Raise e).
Proof.
  intros H. apply structured_summary_raise_inv in H as (p & Hp & H).
  apply summarize_text_raise_inv in H as [(cause & Hc & -> & _)|[He H]].
  - left. now exists cause.
  - right. split; [assumption|]. now exists p.
Qed.

Lemma structured_summary_raises_runtime_error_witness :
  (exists cause,
     is_exception cause = true /\
     RuntimeError "Summarization failed: out of memory"
       (Some (OtherError "OSError" "out of memory"))
     = RuntimeError ("Summarization failed: " ++ exn_str opaque_repr cause) (Some cause)) \/
  (is_exception (RuntimeError "Summarization failed: out of memory"
                   (Some (OtherError "OSError" "out of memory"))) = false /\
   exists p, In p (prompts (VDict sections)) /\
     failing_pipeline (OtherError "OSError" "out of memory")
       (p ++ newline ++ "The text.")%string 150%Z 30%Z false
     = Raise (RuntimeError "Summarization failed: out of memory"
                (Some (OtherError "OSError" "out of memory")))).
Proof.
  apply (structured_summary_raises_runtime_error
           (failing_pipeline (OtherError "OSError" "out of memory")) opaque_repr "The text.").
  reflexivity.
Defined.

(** X12. With a pipeline that returns a string under ['summary_text'] of
    its first result, every review that [structured_summary] returns is
    a valid review: the eight leaves of the schema, each a string, and
    nothing else. *)
Theorem structured_summary_returns_valid_review
    (summarizer : string -> Z -> Z -> bool -> result (list dict)) (repr : value -> string)
    (text : string) (r : value) :
  pipeline_contract summarizer ->
  structured_summary summarizer repr text = Return r -> valid_review r.
Proof. apply structured_summary_valid. Qed.

Lemma structured_summary_returns_valid_review_witness :
  valid_review (review_of (leaves_pure "A summary.")).
Proof.
  apply (structured_summary_returns_valid_review (constant_pipeline "A summary.") opaque_repr
           "The text."); [apply constant_pipeline_ok|reflexivity].
Defined.

(** *** [aggregate_reviews] *)

(** X13. For any number of valid reviews, [aggregate_reviews] returns a
    review whose every leaf is [remove_repeated_sentences] of that leaf
    of the reviews, in the order of the list, joined by single spaces. *)
Theorem aggregate_reviews_leaves (set_iter : list string -> list string) (reviews : list value) :
  Forall valid_review reviews ->
  exists t,
    aggregate_reviews set_iter reviews = Return t /\
    Forall (fun p => exists ls,
              Forall2 (fun r s => leaf r p = Some s) reviews ls /\
              leaf t p = Some (remove_repeated_sentences set_iter (Str.join " " ls)))
           (leaf_paths (VDict sections)).
Proof.
  intros H.
  assert (Hp : Forall partial_review reviews)
    by (eapply Forall_impl; [|exact H]; now intros r [Hr _]).
  apply all_strings_gather in Hp as [Hok Hstr].
  destruct (gather_valid reviews H) as (xs & Hxs & Hg).
  exists (merged set_iter (gather reviews)). split; [now apply aggregate_reviews_merged|].
  apply Forall_leaf_paths. intros sl. exists (map (get_slot sl) xs).
  split; [now apply Forall2_leaf_slot|]. now rewrite leaf_merged, Hg.
Qed.

Lemma aggregate_reviews_leaves_witness :
  exists t,
    aggregate_reviews last_seen
      [review_of (leaves_pure "One. Two"); review_of (leaves_pure "Three");
       review_of (leaves_pure "One. Four")] = Return t /\
    Forall (fun p => exists ls,
              Forall2 (fun r s => leaf r p = Some s)
                [review_of (leaves_pure "One. Two"); review_of (leaves_pure "Three");
                 review_of (leaves_pure "One. Four")] ls /\
              leaf t p = Some (remove_repeated_sentences last_seen (Str.join " " ls)))
           (leaf_paths (VDict sections)).
Proof.
  apply aggregate_reviews_leaves. repeat constructor; apply review_of_valid.
Defined.

(** X14. For reviews within the schema, complete or not,
    [aggregate_reviews] returns a valid review: all eight leaves are
    there, each a string. *)
Theorem aggregate_reviews_valid (set_iter : list string -> list string) (reviews : list value) :
  Forall partial_review reviews ->
  exists t, aggregate_reviews set_iter reviews = Return t /\ valid_review t.
Proof.
  intros H. apply all_strings_gather in H as [Hok Hstr].
  exists (merged set_iter (gather reviews)).
  split; [now apply aggregate_reviews_merged|apply merged_valid].
Qed.

Lemma aggregate_reviews_valid_witness :
  exists t,
    aggregate_reviews last_seen [lacking_question "One. Two"; VDict []] = Return t /\
    valid_review t.
Proof.
  apply aggregate_reviews_valid. repeat constructor.
Defined.

(** X15. A key under ['B: Methods'] that is none of the five of the schema
    makes [aggregate_reviews] raise the KeyError of that key, when the
    reviews and the entries before it are within the schema. *)
Theorem aggregate_reviews_key_error (set_iter : list string -> list string)
    (good rest : list value) (top before after : dict) (k : string) (v : value) :
  Forall partial_review good ->
  Py.lookup top "B: Methods" = Some (VDict (before ++ (k, v) :: after)) ->
  entries_within methods_sections before ->
  ~ In k (Py.keys methods_sections) ->
  aggregate_reviews set_iter (good ++ VDict top :: rest) = Raise (KeyError k).
Proof.
  intros Hgood Hb Hbefore Hk. unfold aggregate_reviews.
  rewrite collect_prefix by now apply partial_reviews_ok.
  rewrite (for_each_raise _ _ _ _ (KeyError k)); [reflexivity|].
  destruct (gather good) as [la lq ls li le lx ly lr].
  unfold collect. cbn [Py.get bind]. rewrite (modify_slot Abstract).
  cbn [Py.append bind get_slot set_slot leaves_map abstract_leaf question_leaf search_leaf
       inclusion_leaf exclusion_leaf extraction_leaf synthesis_leaf results_leaf].
  rewrite Hb. cbn [Py.items bind].
  apply methods_entries in Hbefore as [Hbefore _].
  match goal with
  | |- context [tree_of (Leaves (VList ?a) _ _ _ _ _ _ _)] =>
      change (tree_of (Leaves (VList a) (VList lq) (VList ls) (VList li) (VList le)
                              (VList lx) (VList ly) (VList lr)))
        with (tree_of (leaves_map VList (Leaves a lq ls li le lx ly lr)))
  end.
  rewrite for_each_app, collect_entries_ok by assumption. cbn [bind].
  rewrite (for_each_raise _ _ _ _ (KeyError k)); [reflexivity|].
  now apply collect_entry_unknown.
Qed.

Lemma aggregate_reviews_key_error_witness :
  aggregate_reviews last_seen
    ([review_of (leaves_pure "One. Two")]
     ++ VDict [("B: Methods",
                VDict ([("2. Search Strategy", VStr "PubMed")]
                       ++ ("4. Quality Assessment", VStr "None") :: []))]
     :: [VStr "never reached"])
  = Raise (KeyError "4. Quality Assessment").
Proof.
  apply (aggregate_reviews_key_error last_seen [review_of (leaves_pure "One. Two")]
           [VStr "never reached"]
           [("B: Methods",
             VDict ([("2. Search Strategy", VStr "PubMed")]
                    ++ ("4. Quality Assessment", VStr "None") :: []))]
           [("2. Search Strategy", VStr "PubMed")] [] "4. Quality Assessment" (VStr "None")).
  - repeat constructor.
  - reflexivity.
  - constructor; [|constructor]. eexists. split; reflexivity.
  - cbn. intuition discriminate.
Defined.

(** X16. A review that is not a dict makes [aggregate_reviews] raise the
    AttributeError of its missing ['get'], when the reviews before it
    are within the schema. *)
Theorem aggregate_reviews_not_a_dict (set_iter : list string -> list string)
    (good rest : list value) (v : value) :
  Forall partial_review good ->
  (forall d, v <> VDict d) ->
  aggregate_reviews set_iter (good ++ v :: rest) = Raise (Py.no_attribute v "get").
Proof.
  intros Hgood Hv. unfold aggregate_reviews.
  rewrite collect_prefix by now apply partial_reviews_ok.
  rewrite (for_each_raise _ _ _ _ (Py.no_attribute v "get")); [reflexivity|].
  destruct v as [s|l|d]; [reflexivity|reflexivity|now destruct (Hv d)].
Qed.

Lemma aggregate_reviews_not_a_dict_witness :
  aggregate_reviews last_seen
    ([review_of (leaves_pure "One. Two")] ++ VStr "a summary" :: [])
  = Raise (Py.no_attribute (VStr "a summary") "get").
Proof.
  apply aggregate_reviews_not_a_dict; [repeat constructor|discriminate].
Defined.

(** X17. When every review is a dict whose ['B: Methods'], if any, is a
    dict with keys of the schema and a dict under the criteria,
    [aggregate_reviews] returns a valid review or raises a TypeError,
    that of joining a value that is not a string: the first loop checks
    no leaf. *)
Theorem aggregate_reviews_type_error (set_iter : list string -> list string)
    (reviews : list value) :
  Forall review_ok reviews ->
  (exists t, aggregate_reviews set_iter reviews = Return t /\ valid_review t) \/
  (exists msg, aggregate_reviews set_iter reviews = Raise (TypeError msg)).
Proof.
  intros H. unfold aggregate_reviews.
  rewrite <- (app_nil_r reviews), collect_prefix by assumption. cbn [for_each bind].
  destruct (finish_cases set_iter (gather reviews)) as [[_ E]|[msg E]]; rewrite E.
  - left. eexists. split; [reflexivity|apply merged_valid].
  - right. now exists msg.
Qed.

Lemma aggregate_reviews_type_error_witness :
  (exists t, aggregate_reviews last_seen
               [VDict [("A: Abstract", VList [VStr "One"; VStr "Two"])]] = Return t /\
             valid_review t) \/
  (exists msg, aggregate_reviews last_seen
                 [VDict [("A: Abstract", VList [VStr "One"; VStr "Two"])]]
               = Raise (TypeError msg)).
Proof.
  apply aggregate_reviews_type_error. repeat constructor.
Defined.

(** X18. A review within the schema that has no entry under one of the
    five keys of ['B: Methods'] adds nothing to the leaves read from
    that entry: they are those of the aggregate without that review. *)
Theorem aggregate_reviews_skips_missing_entry (set_iter : list string -> list string)
    (before after : list value) (r : value) (sl : slot) (k : string) :
  Forall partial_review before -> partial_review r -> Forall partial_review after ->
  entry_key sl = Some k ->
  lookup_path r ["B: Methods"; k] = None ->
  exists t u,
    aggregate_reviews set_iter (before ++ r :: after) = Return t /\
    aggregate_reviews set_iter (before ++ after) = Return u /\
    leaf t (slot_path sl) = leaf u (slot_path sl).
Proof.
  intros Hb Hr Ha Hk Hnone.
  assert (H1 : Forall partial_review (before ++ r :: after))
    by (apply Forall_app; split; [assumption|now constructor]).
  assert (H2 : Forall partial_review (before ++ after)) by (apply Forall_app; now split).
  apply all_strings_gather in H1 as [Hok1 Hstr1]. apply all_strings_gather in H2 as [Hok2 Hstr2].
  exists (merged set_iter (gather (before ++ r :: after))),
         (merged set_iter (gather (before ++ after))).
  split; [now apply aggregate_reviews_merged|]. split; [now apply aggregate_reviews_merged|].
  rewrite !leaf_merged, !gather_app, gather_cons, !get_slot_add.
  now rewrite (review_lists_missing_entry r sl k Hr Hk Hnone).
Qed.

Lemma aggregate_reviews_skips_missing_entry_witness :
  exists t u,
    aggregate_reviews last_seen
      ([review_of (leaves_pure "One")] ++ lacking_question "Two"
       :: [review_of (leaves_pure "Three")]) = Return t /\
    aggregate_reviews last_seen
      ([review_of (leaves_pure "One")] ++ [review_of (leaves_pure "Three")]) = Return u /\
    leaf t (slot_path Question) = leaf u (slot_path Question).
Proof.
  apply (aggregate_reviews_skips_missing_entry last_seen
           [review_of (leaves_pure "One")] [review_of (leaves_pure "Three")]
           (lacking_question "Two") Question "1. Research Question");
    try reflexivity; repeat constructor.
Defined.

(** X19. [aggregate_reviews] reads a valid review through its eight leaves
    only: two valid reviews with the same leaves, whatever the order of
    their keys, give the same outcome at the same place of the list. *)
Theorem aggregate_reviews_reads_leaves (set_iter : list string -> list string)
    (before after : list value) (r r' : value) :
  Forall partial_review before -> Forall partial_review after ->
  valid_review r -> valid_review r' ->
  (forall p, In p (leaf_paths (VDict sections)) -> leaf r p = leaf r' p) ->
  aggregate_reviews set_iter (before ++ r :: after)
  = aggregate_reviews set_iter (before ++ r' :: after).
Proof.
  intros Hb Ha Hr Hr' Hleaf.
  destruct (valid_review_leaves r Hr) as (x & Hx & Ex).
  destruct (valid_review_leaves r' Hr') as (x' & Hx' & Ex').
  assert (E : x = x').
  { assert (Hs : forall sl, get_slot sl x = get_slot sl x').
    { intros sl. specialize (Hleaf (slot_path sl)). rewrite Hx, Hx' in Hleaf.
      assert (Hin : In (slot_path sl) (leaf_paths (VDict sections)))
        by (rewrite leaf_paths_sections; apply in_map; destruct sl; cbn; tauto).
      now injection (Hleaf Hin). }
    pose proof (Hs Abstract). pose proof (Hs Question). pose proof (Hs Search).
    pose proof (Hs Inclusion). pose proof (Hs Exclusion). pose proof (Hs Extraction).
    pose proof (Hs Synthesis). pose proof (Hs Results).
    destruct x, x'. cbn in *. congruence. }
  subst x'.
  assert (H1 : Forall partial_review (before ++ r :: after))
    by (apply Forall_app; split; [assumption|constructor; [apply Hr|assumption]]).
  assert (H2 : Forall partial_review (before ++ r' :: after))
    by (apply Forall_app; split; [assumption|constructor; [apply Hr'|assumption]]).
  apply all_strings_gather in H1 as [Hok1 Hstr1]. apply all_strings_gather in H2 as [Hok2 Hstr2].
  rewrite !aggregate_reviews_merged by assumption.
  now rewrite !gather_app, !gather_cons, Ex, Ex'.
Qed.

Lemma aggregate_reviews_reads_leaves_witness :
  aggregate_reviews last_seen ([lacking_question "One"] ++ review_of (leaves_pure "Two") :: [])
  = aggregate_reviews last_seen ([lacking_question "One"] ++ reordered_review "Two" :: []).
Proof.
  apply aggregate_reviews_reads_leaves.
  - repeat constructor.
  - constructor.
  - apply review_of_valid.
  - split; reflexivity.
  - intros p Hp. cbn in Hp. decompose [or] Hp; try contradiction; subst p; reflexivity.
Defined.

(** *** [extract_text_from_pdf] and the batch *)

Section BatchTheorems.

Variable summarizer : string -> Z -> Z -> bool -> result (list dict).
Variable repr : value -> string.
Variable set_iter : list string -> list string.
Variable upload : Type.
Variable name : upload -> string.
Variable page : Type.
Variable PdfReader : upload -> result (list page).
Variable extract_text : page -> result string.
Variable json_dumps : value -> string.
Variable absolute : string -> string.

(** X20. When the file opens and every page gives its text,
    [extract_text_from_pdf] returns the texts of the pages in order, with
    nothing between them. *)
Theorem extract_text_from_pdf_pages (pdf_path : upload) (pages : list page)
    (texts : list string) :
  PdfReader pdf_path = Return pages ->
  Forall2 (fun p t => extract_text p = Return t) pages texts ->
  extract_text_from_pdf repr upload name page PdfReader extract_text pdf_path
  = Return (String.concat "" texts).
Proof.
  intros Hr Hp. unfold extract_text_from_pdf. rewrite Hr. cbn [bind].
  now rewrite (read_pages_all page extract_text pages texts "" Hp).
Qed.

(** X21. When a page fails, [extract_text_from_pdf] returns nothing of
    the pages before it: for a failure of [Exception] it raises the
    ValueError ['Error reading <name>: <cause>'] of the first page that
    fails, and an exception outside [Exception] it passes on as it is. *)
Theorem extract_text_from_pdf_first_failure (pdf_path : upload)
    (before after : list page) (p : page) (cause : exn) :
  PdfReader pdf_path = Return (before ++ p :: after) ->
  Forall (fun q => exists t, extract_text q = Return t) before ->
  extract_text p = Raise cause ->
  extract_text_from_pdf repr upload name page PdfReader extract_text pdf_path
  = Raise (if is_exception cause
           then OtherError "ValueError"
                  ("Error reading " ++ name pdf_path ++ ": " ++ exn_str repr cause)
           else cause).
Proof.
  intros Hr Hb Hp. unfold extract_text_from_pdf. rewrite Hr. cbn [bind].
  rewrite (read_pages_failure page extract_text before after p cause "" Hb Hp).
  cbn [try_except]. now destruct (is_exception cause).
Qed.

(** X22. An exception that leaves [extract_text_from_pdf] comes from
    opening the file or from one of its pages: a cause of [Exception]
    leaves as the ValueError ['Error reading <name>: <cause>'], a cause
    outside [Exception] leaves as it is. *)
Theorem extract_text_from_pdf_raises_value_error (pdf_path : upload) (e : exn) :
  extract_text_from_pdf repr upload name page PdfReader extract_text pdf_path = Raise e ->
  exists cause,
    (PdfReader pdf_path = Raise cause \/
     exists pages p,
       PdfReader pdf_path = Return pages /\ In p pages /\ extract_text p = Raise cause) /\
    e = if is_exception cause
        then OtherError "ValueError"
               ("Error reading " ++ name pdf_path ++ ": " ++ exn_str repr cause)
        else cause.
Proof. apply extract_raise_inv. Qed.

(** X23. The loop over the uploaded files goes on after a file that fails
    with an exception of [Exception] and stops at the first file that
    fails with another exception, which leaves the loop.  The reviews
    collected are those of the files before that one whose processing
    returned, in the order of the upload. *)
Theorem process_files_results (uploaded_files : list upload) :
  fst (fst (process_files summarizer repr upload name page PdfReader extract_text
              uploaded_files))
  = flat_map (fun f =>
                match review_file summarizer repr upload name page PdfReader extract_text f with
                | Return review => [review]
                | Raise _ => []
                end)
      (before_fatal (review_file summarizer repr upload name page PdfReader extract_text)
         uploaded_files) /\
  snd (process_files summarizer repr upload name page PdfReader extract_text uploaded_files)
  = first_fatal (review_file summarizer repr upload name page PdfReader extract_text)
      uploaded_files.
Proof. split; [apply process_results|apply process_stopped]. Qed.

(** X24. For the files before the first that fails with an exception
    outside [Exception], all of them when there is none, the loop shows
    one error message ['Failed to process <name>: <exception>'] for each
    file that fails and one success message ['Review completed for
    <name>'] for each other file, each in the order of the upload.  With
    the spinner it shows one message and two for each of these files,
    and the progress line of the file that stopped it. *)
Theorem process_files_messages (uploaded_files : list upload) :
  let shown :=
    snd (fst (process_files summarizer repr upload name page PdfReader extract_text
                uploaded_files)) in
  let taken :=
    before_fatal (review_file summarizer repr upload name page PdfReader extract_text)
      uploaded_files in
  errors_shown shown
  = flat_map (fun f =>
                match review_file summarizer repr upload name page PdfReader extract_text f with
                | Return _ => []
                | Raise e => [("Failed to process " ++ name f ++ ": " ++ exn_str repr e)%string]
                end) taken /\
  successes_shown shown
  = flat_map (fun f =>
                match review_file summarizer repr upload name page PdfReader extract_text f with
                | Return _ => [("Review completed for " ++ name f)%string]
                | Raise _ => []
                end) taken /\
  length shown
  = 1 + 2 * length taken
    + match first_fatal (review_file summarizer repr upload name page PdfReader extract_text)
              uploaded_files with
      | Some _ => 1
      | None => 0
      end.
Proof.
  cbn zeta. unfold process_files. repeat split.
  - now rewrite process_loop_errors, enumerate_files.
  - now rewrite process_loop_successes, enumerate_files.
  - now rewrite process_loop_length, enumerate_files.
Qed.

(** X25. With a pipeline that returns a string under ['summary_text'] of
    its first result, the script ends without an exception, or with an
    exception outside [Exception] that the reader of a file, one of its
    pages or the pipeline raised: every other failure of a file is
    caught in the loop, and the aggregation of the reviews collected
    cannot fail. *)
Theorem main_ends (uploaded_files : list upload) (button : bool) :
  pipeline_contract summarizer ->
  snd (main summarizer repr set_iter upload name page PdfReader extract_text
            json_dumps absolute uploaded_files button) = Return tt \/
  exists f e,
    In f uploaded_files /\ is_exception e = false /\
    snd (main summarizer repr set_iter upload name page PdfReader extract_text
              json_dumps absolute uploaded_files button) = Raise e /\
    (PdfReader f = Raise e \/
     (exists pages p, PdfReader f = Return pages /\ In p pages /\ extract_text p = Raise e) \/
     (exists input, summarizer input 150%Z 30%Z false = Raise e)).
Proof.
  intros Hpipe. destruct button; [|now left].
  destruct uploaded_files as [|f files]; [now left|].
  destruct (snd (process_files summarizer repr upload name page PdfReader extract_text
                   (f :: files))) as [e|] eqn:Es.
  - right. pose proof Es as Ef. rewrite process_stopped in Ef.
    apply first_fatal_some in Ef as (g & Hg & Eg & He). exists g, e.
    split; [assumption|]. split; [assumption|].
    split; [now apply main_stopped|]. now apply (review_fatal_inv summarizer repr upload name).
  - left.
    destruct (aggregate_valid_reviews set_iter _
                (process_results_valid summarizer repr upload name page PdfReader extract_text
                   (f :: files) Hpipe)) as (t & E & _).
    now apply (main_shown summarizer repr set_iter upload name page PdfReader extract_text
                 json_dumps absolute (f :: files) t).
Qed.

(** X26. With such a pipeline, at least one uploaded file and no file
    that fails with an exception outside [Exception], the script shows
    and writes to ['systematic_review.json'] the aggregate of the reviews
    collected, and this aggregate is a valid review. *)
Theorem main_saves_valid_review (uploaded_files : list upload) :
  pipeline_contract summarizer ->
  uploaded_files <> [] ->
  (forall f e, In f uploaded_files ->
     review_file summarizer repr upload name page PdfReader extract_text f = Raise e ->
     is_exception e = true) ->
  exists t,
    aggregate_reviews set_iter
      (fst (fst (process_files summarizer repr upload name page PdfReader extract_text
                   uploaded_files))) = Return t /\
    valid_review t /\
    snd (main summarizer repr set_iter upload name page PdfReader extract_text
              json_dumps absolute uploaded_files true) = Return tt /\
    In (StJson t)
       (fst (main summarizer repr set_iter upload name page PdfReader extract_text
               json_dumps absolute uploaded_files true)) /\
    In (FileWrite "systematic_review.json" (json_dumps t))
       (fst (main summarizer repr set_iter upload name page PdfReader extract_text
               json_dumps absolute uploaded_files true)).
Proof.
  intros Hpipe Hne Hcaught.
  destruct (aggregate_valid_reviews set_iter _
              (process_results_valid summarizer repr upload name page PdfReader extract_text
                 uploaded_files Hpipe)) as (t & E & Hv).
  exists t. split; [assumption|]. split; [assumption|].
  apply (main_shown summarizer repr set_iter upload name page PdfReader extract_text
           json_dumps absolute uploaded_files t); [assumption| |assumption].
  rewrite process_stopped. now apply first_fatal_none.
Qed.

(** X27. When every uploaded file fails with an exception of
    [Exception], the script still ends without an exception and shows,
    as the systematic review, the review with the empty string at every
    leaf. *)
Theorem main_all_fail (uploaded_files : list upload) :
  set_contract set_iter ->
  uploaded_files <> [] ->
  (forall f, In f uploaded_files ->
     exists e,
       review_file summarizer repr upload name page PdfReader extract_text f = Raise e /\
       is_exception e = true) ->
  snd (main summarizer repr set_iter upload name page PdfReader extract_text
            json_dumps absolute uploaded_files true) = Return tt /\
  In (StJson (review_of (leaves_pure "")))
     (fst (main summarizer repr set_iter upload name page PdfReader extract_text
             json_dumps absolute uploaded_files true)).
Proof.
  intros Hset Hne Hfail.
  assert (Hcaught : forall f e, In f uploaded_files ->
            review_file summarizer repr upload name page PdfReader extract_text f = Raise e ->
            is_exception e = true).
  { intros f e Hf E. destruct (Hfail f Hf) as (e' & E' & He'). congruence. }
  destruct (first_fatal_none _ _ Hcaught) as [Hnone Hall].
  assert (E : fst (fst (process_files summarizer repr upload name page PdfReader extract_text
                          uploaded_files)) = []).
  { rewrite process_results, Hall. clear Hne Hcaught Hnone Hall.
    induction uploaded_files as [|f files IH]; [reflexivity|].
    cbn [flat_map]. destruct (Hfail f (or_introl eq_refl)) as (e & -> & _). cbn [app].
    apply IH. intros g Hg. apply Hfail. now right. }
  pose proof (aggregate_reviews_none set_iter Hset) as Hagg. rewrite <- E in Hagg.
  assert (Hs : snd (process_files summarizer repr upload name page PdfReader extract_text
                      uploaded_files) = None) by now rewrite process_stopped.
  destruct (main_shown summarizer repr set_iter upload name page PdfReader extract_text
              json_dumps absolute uploaded_files _ Hne Hs Hagg) as (H1 & H2 & _).
  now split.
Qed.

End BatchTheorems.

Lemma extract_text_from_pdf_pages_witness :
  extract_text_from_pdf opaque_repr string demo_name (result string) demo_reader demo_extract
    "paper.pdf"
  = Return (String.concat "" ["First page. "; "Second page."]).
Proof.
  apply (extract_text_from_pdf_pages opaque_repr string demo_name (result string)
           demo_reader demo_extract "paper.pdf"
           [Return "First page. "; Return "Second page."]);
    [reflexivity|repeat constructor].
Defined.

Lemma extract_text_from_pdf_first_failure_witness :
  extract_text_from_pdf opaque_repr string demo_name (result string) demo_reader demo_extract
    "scan.pdf"
  = Raise (OtherError "ValueError" "Error reading scan.pdf: unsupported filter").
Proof.
  apply (extract_text_from_pdf_first_failure opaque_repr string demo_name (result string)
           demo_reader demo_extract "scan.pdf" [Return "Title page. "] []
           (Raise (OtherError "NotImplementedError" "unsupported filter"))
           (OtherError "NotImplementedError" "unsupported filter")).
  - reflexivity.
  - repeat constructor. now exists "Title page. ".
  - reflexivity.
Defined.

Lemma extract_text_from_pdf_raises_value_error_witness :
  exists cause,
    (demo_reader "interrupted.pdf" = Raise cause \/
     exists pages p,
       demo_reader "interrupted.pdf" = Return pages /\ In p pages /\
       demo_extract p = Raise cause) /\
    OtherError "KeyboardInterrupt" ""
    = if is_exception cause
      then OtherError "ValueError"
             ("Error reading " ++ demo_name "interrupted.pdf" ++ ": "
              ++ exn_str opaque_repr cause)
      else cause.
Proof.
  apply (extract_text_from_pdf_raises_value_error opaque_repr string demo_name (result string)
           demo_reader demo_extract "interrupted.pdf"). reflexivity.
Defined.

Lemma main_ends_witness :
  snd (main (constant_pipeline "A summary.") opaque_repr last_seen string demo_name
         (result string) demo_reader demo_extract opaque_repr demo_absolute
         ["paper.pdf"; "interrupted.pdf"; "broken.pdf"] true) = Return tt \/
  exists f e,
    In f ["paper.pdf"; "interrupted.pdf"; "broken.pdf"] /\ is_exception e = false /\
    snd (main (constant_pipeline "A summary.") opaque_repr last_seen string demo_name
           (result string) demo_reader demo_extract opaque_repr demo_absolute
           ["paper.pdf"; "interrupted.pdf"; "broken.pdf"] true) = Raise e /\
    (demo_reader f = Raise e \/
     (exists pages p, demo_reader f = Return pages /\ In p pages /\ demo_extract p = Raise e) \/
     (exists input, constant_pipeline "A summary." input 150%Z 30%Z false = Raise e)).
Proof.
  apply main_ends. apply constant_pipeline_ok.
Defined.

Lemma main_saves_valid_review_witness :
  exists t,
    aggregate_reviews last_seen
      (fst (fst (process_files (constant_pipeline "A summary.") opaque_repr string demo_name
                   (result string) demo_reader demo_extract ["paper.pdf"; "broken.pdf"])))
    = Return t /\
    valid_review t /\
    snd (main (constant_pipeline "A summary.") opaque_repr last_seen string demo_name
           (result string) demo_reader demo_extract opaque_repr demo_absolute
           ["paper.pdf"; "broken.pdf"] true) = Return tt /\
    In (StJson t)
       (fst (main (constant_pipeline "A summary.") opaque_repr last_seen string demo_name
               (result string) demo_reader demo_extract opaque_repr demo_absolute
               ["paper.pdf"; "broken.pdf"] true)) /\
    In (FileWrite "systematic_review.json" (opaque_repr t))
       (fst (main (constant_pipeline "A summary.") opaque_repr last_seen string demo_name
               (result string) demo_reader demo_extract opaque_repr demo_absolute
               ["paper.pdf"; "broken.pdf"] true)).
Proof.
  apply main_saves_valid_review; [apply constant_pipeline_ok|discriminate|].
  intros f e [<-|[<-|[]]]; vm_compute; intros [= <-]; reflexivity.
Defined.

Lemma main_all_fail_witness :
  snd (main (constant_pipeline "A summary.") opaque_repr last_seen string demo_name
         (result string) demo_reader demo_extract opaque_repr demo_absolute
         ["broken.pdf"; "scan.pdf"] true) = Return tt /\
  In (StJson (review_of (leaves_pure "")))
     (fst (main (constant_pipeline "A summary.") opaque_repr last_seen string demo_name
             (result string) demo_reader demo_extract opaque_repr demo_absolute
             ["broken.pdf"; "scan.pdf"] true)).
Proof.
  apply main_all_fail; [exact last_seen_ok|discriminate|].
  intros f [<-|[<-|[]]]; eexists; split; reflexivity.
Defined.
